(** * Payment-history scraper: extraction heuristics and user edits

    A shallow embedding of [scraper.py] (class [PaymentDataScraper]) and of
    the [update_data] route of [app.py], followed by the properties of the
    extraction pipeline: table classification, header mapping, row
    extraction, the structured-content fallback, de-duplication, text
    cleaning and the user-edit operation.

    Python values are embedded as follows.
    - [str] is a list of Unicode code points ([Z]); ASCII literals of the
      source are written with [py "..."].
    - a [dict] with string keys is a [gmap str _]; the dict built by
      [_map_headers_to_targets] is a [gmap nat str].
    - a parsed HTML document is a [node] tree, queried with [find_all],
      [find] and [get_text] as the source does through BeautifulSoup.
    - what the interpreter decides from tables that are not part of the
      repository (Unicode alphanumerics, Unicode lower-casing, [int] of
      anything but a plain decimal literal, [str] of floats and
      containers) is a field of the class [PyRuntime]; on ASCII text
      every function below computes without them. *)

From Stdlib Require Import ZArith String Ascii DecimalString.
From stdpp Require Import base list gmap sorting.

#[local] Open Scope Z_scope.
#[local] Set Warnings "-register-all,-clear-no-such-hyp".

(** ** Python strings *)

Abbreviation str := (list Z).

Module PyStr.

(** An ASCII literal of the source as a list of code points. *)
Definition py (s : string) : str :=
  (fun a => Z.of_N (N_of_ascii a)) <$> list_ascii_of_string s.

(** [Py_UNICODE_ISSPACE]: the code points on which [str.split()],
    [str.strip()] and the regular-expression class [\s] agree. *)
Definition isspace (c : Z) : bool :=
  (9 <=? c) && (c <=? 13) || (28 <=? c) && (c <=? 32)
  || (c =? 133) || (c =? 160) || (c =? 5760)
  || (8192 <=? c) && (c <=? 8202)
  || (c =? 8232) || (c =? 8233) || (c =? 8239) || (c =? 8287)
  || (c =? 12288).

Definition is_ascii (c : Z) : bool := (0 <=? c) && (c <? 128).

Definition ascii_isalnum (c : Z) : bool :=
  (48 <=? c) && (c <=? 57) || (65 <=? c) && (c <=? 90)
  || (97 <=? c) && (c <=? 122).

Definition ascii_lower (c : Z) : Z :=
  if (65 <=? c) && (c <=? 90) then c + 32 else c.

(** [text.split()]: the maximal runs of non-whitespace characters.
    [cur] is the run being read. *)
Fixpoint split_from (cur : str) (s : str) : list str :=
  match s with
  | [] => match cur with [] => [] | _ => [cur] end
  | c :: s' =>
      if isspace c
      then match cur with [] => split_from [] s' | _ => cur :: split_from [] s' end
      else split_from (cur ++ [c]) s'
  end.

Definition split (s : str) : list str := split_from [] s.

(** [sep.join(parts)] *)
Fixpoint join (sep : str) (parts : list str) : str :=
  match parts with
  | [] => []
  | [p] => p
  | p :: rest => p ++ sep ++ join sep rest
  end.

(** [s.lstrip()], [s.rstrip()] and [s.strip()] *)
Fixpoint lstrip (s : str) : str :=
  match s with
  | [] => []
  | c :: s' => if isspace c then lstrip s' else s
  end.

Definition rstrip (s : str) : str := reverse (lstrip (reverse s)).

Definition strip (s : str) : str := rstrip (lstrip s).

(** [s.startswith(p)] *)
Fixpoint startswith (p s : str) : bool :=
  match p, s with
  | [], _ => true
  | _ :: _, [] => false
  | a :: p', b :: s' => (a =? b) && startswith p' s'
  end.

(** [needle in hay] on strings *)
Fixpoint str_in (needle hay : str) : bool :=
  startswith needle hay
  || match hay with
     | [] => false
     | _ :: hay' => str_in needle hay'
     end.

(** [text.split(sep, 1)] for a one-character separator: at most one cut,
    at the first occurrence of [sep]. *)
Fixpoint split1_from (sep : Z) (cur : str) (s : str) : list str :=
  match s with
  | [] => [cur]
  | c :: s' => if c =? sep then [cur; s'] else split1_from sep (cur ++ [c]) s'
  end.

Definition split1 (sep : Z) (s : str) : list str := split1_from sep [] s.

(** Python truthiness of a string *)
Definition truthy (s : str) : bool :=
  match s with [] => false | _ => true end.

(** Comparison of strings, as [<] and [<=] of Python compare them: by
    code point, a proper prefix first. *)
Fixpoint str_ltb (a b : str) : bool :=
  match a, b with
  | [], [] => false
  | [], _ :: _ => true
  | _ :: _, [] => false
  | x :: a', y :: b' => (x <? y) || (x =? y) && str_ltb a' b'
  end.

End PyStr.
Export PyStr.

(** ** Decoded JSON *)

(** What [request.get_json()] returns. A float is carried as the text
    Python prints for it. *)
Inductive json : Type :=
  | JNull
  | JBool (b : bool)
  | JInt (n : Z)
  | JFloat (repr : str)
  | JStr (s : str)
  | JList (items : list json)
  | JDict (items : list (str * json)).

(** ** The interpreter's tables *)

(** What Python decides from tables and rules that are not in the
    repository. Each field is consulted only where the functions below do
    not compute the answer themselves. *)
Class PyRuntime := {
  (** [c.isalnum()] for a code point above 127 *)
  isalnum_nonascii : Z -> bool;
  (** [s.lower()] for a string with a code point above 127 *)
  lower_nonascii : str -> str;
  (** [int(s)] for a string that is not a plain decimal literal of at most
      4300 characters (blanks around it, underscores, digits of other
      scripts, literals past the interpreter's digit limit); [None] is
      [ValueError] *)
  int_other : str -> option Z;
  (** [str(v)] for a float, a list, a dict, or an integer past the
      interpreter's digit limit *)
  str_other : json -> str
}.

Section Runtime.
Context {RT : PyRuntime}.

(** The class [\w] of [re] on [str] patterns: alphanumerics and [_]. *)
Definition isword (c : Z) : bool :=
  if is_ascii c then ascii_isalnum c || (c =? 95) else isalnum_nonascii c.

(** [s.lower()] *)
Definition lower (s : str) : str :=
  if forallb is_ascii s then ascii_lower <$> s else lower_nonascii s.

End Runtime.

(** ** Parsed HTML, as the scraper queries it *)

(** The tree BeautifulSoup builds: text nodes and tags with attributes. *)
Inductive node : Type :=
  | Text (s : str)
  | Tag (name : str) (attrs : list (str * str)) (children : list node).

Module Soup.

(** [element.get_text()]: the text nodes below the element, concatenated. *)
Fixpoint get_text (n : node) : str :=
  match n with
  | Text s => s
  | Tag _ _ children => concat (List.map get_text children)
  end.

(** The tags and texts strictly below an element, in document order. *)
Fixpoint descendants (n : node) : list node :=
  match n with
  | Text _ => []
  | Tag _ _ children => List.flat_map (fun c => c :: descendants c) children
  end.

Definition has_name (names : list str) (n : node) : bool :=
  match n with
  | Text _ => false
  | Tag name _ _ => bool_decide (name ∈ names)
  end.

(** [element.find_all(names)] *)
Definition find_all (names : list str) (n : node) : list node :=
  filter (fun d => has_name names d) (descendants n).

(** [element.find(name)], as a truth value *)
Definition find (name : str) (n : node) : bool :=
  match find_all [name] n with [] => false | _ :: _ => true end.

(** [str(element)]: the markup of the element. Attribute order and entity
    escaping are left out: the scraper only searches the markup for
    [font-weight:bold], which neither can create nor break. *)
Fixpoint markup (n : node) : str :=
  match n with
  | Text s => s
  | Tag name attrs children =>
      py "<" ++ name
      ++ concat (List.map (fun kv => py " " ++ fst kv ++ py "=" ++ [34] ++ snd kv ++ [34]) attrs)
      ++ py ">" ++ concat (List.map markup children)
      ++ py "</" ++ name ++ py ">"
  end.

End Soup.
Export Soup.

(** ** Records *)

(** A scraped record: column name to cell text. *)
Abbreviation record := (gmap str str).

(** [enumerate(l)] *)
Definition enumerate {A : Type} (l : list A) : list (nat * A) :=
  zip (seq 0 (length l)) l.

(** ** scraper.py: class PaymentDataScraper *)

Definition target_columns : list str :=
  [py "Receipt No"; py "Date"; py "Principal"; py "Pen"; py "CBU";
   py "CBU withdraw"; py "Collector"].

Definition calculated_columns : list str :=
  [py "Principal_PassBook"; py "Principal_Variance"; py "CBU_PassBook";
   py "CBU_Variance"; py "CBU_withdraw_PassBook"; py "CBU_withdraw_Variance"].

Section Scraper.
Context {RT : PyRuntime}.

(** The character class of [_clean_text]'s pattern, negated: what
    [re.sub] keeps. The currency signs are U+20AC, U+00A3 and U+00A5. *)
Definition kept_char (c : Z) : bool :=
  isword c || isspace c
  || bool_decide (c ∈ py "$" ++ [8364; 163; 165] ++ py ".,:-/()%").

Definition _clean_text (text : str) : str :=
  if negb (truthy text) then []
  else
    let text := join (py " ") (split text) in
    let text := filter (fun c => kept_char c) text in
    strip text.

Definition payment_indicators : list str :=
  [py "receipt"; py "date"; py "principal"; py "collector"; py "pen";
   py "cbu"; py "payment"; py "amount paid"].

Definition _is_payment_table (table_text : str) : bool :=
  bool_decide (4 <= length (filter (fun indicator => str_in indicator table_text)
                                   payment_indicators))%nat.

Definition _contains_header_keywords (headers : list str) : bool :=
  let header_text := lower (join (py " ") headers) in
  existsb (fun target => str_in (lower target) header_text) target_columns.

(** The [if]/[elif] chain of [_map_headers_to_targets] for one header:
    the target column, or [None] when no branch is taken. *)
Definition map_header (header : str) : option str :=
  let header_lower := strip (lower header) in
  if bool_decide (header_lower = py "date") then Some (py "Date")
  else if bool_decide (header_lower ∈ [py "receipt no"; py "receipt"; py "receipt number";
                                       py "ref no"; py "reference"; py "transaction id"])
  then Some (py "Receipt No")
  else if bool_decide (header_lower = py "principal") then Some (py "Principal")
  else if bool_decide (header_lower = py "pen") then Some (py "Pen")
  else if bool_decide (header_lower = py "cbu") then Some (py "CBU")
  else if bool_decide (header_lower = py "cbu withdraw") then Some (py "CBU withdraw")
  else if bool_decide (header_lower = py "collector") then Some (py "Collector")
  else if str_in (py "date") header_lower && bool_decide (length header_lower <= 10)%nat
  then Some (py "Date")
  else if bool_decide (header_lower ∈ [py "penalty"; py "pen"; py "denda"])
          || bool_decide (header_lower = py "pen") && bool_decide (length header <= 5)%nat
  then Some (py "Pen")
  else if str_in (py "principal") header_lower || str_in (py "pokok") header_lower
  then Some (py "Principal")
  else if startswith (py "cbu") header_lower
  then if str_in (py "withdraw") header_lower || str_in (py "tarik") header_lower
       then Some (py "CBU withdraw")
       else Some (py "CBU")
  else if str_in (py "collector") header_lower || str_in (py "kolektor") header_lower
  then Some (py "Collector")
  else None.

Definition _map_headers_to_targets (headers : list str) : gmap nat str :=
  foldl (fun mapping ih =>
           match map_header (snd ih) with
           | Some target => <[fst ih := target]> mapping
           | None => mapping
           end)
        ∅ (enumerate headers).

End Scraper.

Section Tables.
Context {RT : PyRuntime}.

(** [self._clean_text(cell.get_text())] *)
Definition clean_cell (cell : node) : str := _clean_text (get_text cell).

(** [cell.find('b') or 'font-weight:bold' in str(cell)] *)
Definition is_bold (cell : node) : bool :=
  find (py "b") cell || str_in (py "font-weight:bold") (markup cell).

(** The header search of [_process_table]: the loop over
    [table.find_all('tr')] up to its [break]. The result is the pair
    [(header_row, headers)], [(None, [])] when the loop ends without one. *)
Fixpoint find_header (rows : list node) : option node * list str :=
  match rows with
  | [] => (None, [])
  | row :: rest =>
      let th_cells := find_all [py "th"] row in
      if bool_decide (th_cells ≠ []) then (Some row, clean_cell <$> th_cells)
      else
        let td_cells := find_all [py "td"] row in
        if bool_decide (td_cells ≠ [])
           && (bool_decide (0 < length (filter (fun cell => is_bold cell) td_cells))%nat
               || _contains_header_keywords (clean_cell <$> td_cells))
        then (Some row, clean_cell <$> td_cells)
        else find_header rest
  end.

(** The inner loop of [_process_table] over the cells of one row. *)
Definition row_data_of (column_mapping : gmap nat str) (cells : list node) : record :=
  foldl (fun row_data ic =>
           let cell_text := clean_cell (snd ic) in
           match column_mapping !! fst ic with
           | Some target_column =>
               if truthy target_column && truthy cell_text
                  && bool_decide (cell_text ≠ [])
               then <[target_column := cell_text]> row_data
               else row_data
           | None => row_data
           end)
        ∅ (enumerate cells).

(** The six assignments that close an accepted row. *)
Definition add_calculated (row_data : record) : record :=
  <[py "CBU_withdraw_Variance" := []]>
  (<[py "CBU_withdraw_PassBook" := []]>
  (<[py "CBU_Variance" := []]>
  (<[py "CBU_PassBook" := []]>
  (<[py "Principal_Variance" := []]>
  (<[py "Principal_PassBook" := []]> row_data))))).

(** The body of the loop over [data_rows]: the record the row adds to
    [data], if any. *)
Definition extract_row (column_mapping : gmap nat str) (headers : list str)
    (row : node) : option record :=
  let cells := find_all [py "td"; py "th"] row in
  if bool_decide (length cells = length headers) then
    let row_data := row_data_of column_mapping cells in
    if bool_decide (3 <= size row_data)%nat then Some (add_calculated row_data)
    else None
  else None.

(** [sum(1 for v in column_mapping.values() if v)] *)
Definition mapped_count (column_mapping : gmap nat str) : nat :=
  length (filter (fun v => truthy v) (snd <$> map_to_list column_mapping)).

(** [all_rows[1:] if header_row else all_rows]; a tag is always true. *)
Definition data_rows_of (header_row : option node) (all_rows : list node) : list node :=
  match header_row with
  | Some _ => drop 1 all_rows
  | None => all_rows
  end.

Definition _process_table (table : node) : list record :=
  let table_text := lower (get_text table) in
  if negb (_is_payment_table table_text) then []
  else
    let '(header_row, headers) := find_header (find_all [py "tr"] table) in
    if negb (bool_decide (headers ≠ [])) then []
    else
      let column_mapping := _map_headers_to_targets headers in
      if bool_decide (mapped_count column_mapping < 3)%nat then []
      else
        let all_rows := find_all [py "tr"] table in
        let data_rows := data_rows_of header_row all_rows in
        omap (extract_row column_mapping headers) data_rows.

Definition _extract_from_tables (soup : node) : list record :=
  List.flat_map _process_table (find_all [py "table"] soup).

(** One turn of the loop of [_extract_from_structured_content]; the state
    is [(data, current_record)]. *)
Definition structured_step (st : list record * record) (element : node)
    : list record * record :=
  let '(data, current_record) := st in
  let text := _clean_text (get_text element) in
  let current_record :=
    if str_in (py ":") text then
      match split1 58 text with
      | [p0; p1] =>
          let key := strip p0 in
          let value := strip p1 in
          match List.find (fun target => str_in (lower target) (lower key)) target_columns with
          | Some target => <[target := value]> current_record
          | None => current_record
          end
      | _ => current_record
      end
    else current_record in
  if bool_decide (2 <= size current_record)%nat
  then (data ++ [current_record], ∅)
  else (data, current_record).

Definition _extract_from_structured_content (soup : node) : list record :=
  let '(data, current_record) :=
    foldl structured_step ([], ∅) (find_all [py "div"; py "span"; py "p"] soup) in
  if bool_decide (current_record ≠ ∅) then data ++ [current_record] else data.

End Tables.

(** ** De-duplication *)

(** [<] on [(key, value)] tuples *)
Definition item_ltb (a b : str * str) : bool :=
  str_ltb (fst a) (fst b)
  || bool_decide (fst a = fst b) && str_ltb (snd a) (snd b).

(** The order [sorted] arranges the items in: [b] does not come before [a]. *)
Definition item_le (a b : str * str) : Prop := item_ltb b a = false.

#[local] Instance item_le_dec (a b : str * str) : Decision (item_le a b) :=
  bool_eq_dec (item_ltb b a) false.

(** [tuple(sorted(item.items()))] *)
Definition signature (item : record) : list (str * str) :=
  merge_sort item_le (map_to_list item).

(** One turn of the loop of [_remove_duplicates]; the state is
    [(seen, unique_data)]. *)
Definition dedup_step (st : gset (list (str * str)) * list record) (item : record)
    : gset (list (str * str)) * list record :=
  let '(seen, unique_data) := st in
  let item_signature := signature item in
  if bool_decide (item_signature ∉ seen)
  then ({[item_signature]} ∪ seen, unique_data ++ [item])
  else (seen, unique_data).

Definition _remove_duplicates (data : list record) : list record :=
  snd (foldl dedup_step (∅, []) data).

(** [scrape_payment_data], from the parsed page on. *)
Definition scrape_payment_data {RT : PyRuntime} (soup : node) : list record :=
  let payment_data := _extract_from_tables soup in
  let payment_data :=
    if negb (bool_decide (payment_data ≠ []))
    then payment_data ++ _extract_from_structured_content soup
    else payment_data in
  _remove_duplicates payment_data.

(** ** app.py: the [update_data] route *)

Module App.

Inductive exn : Type := ValueError | AttributeError | IndexError.

(** A computation of the [try] block: a value, or the exception raised. *)
Definition result (A : Type) : Type := exn + A.

Definition ret {A : Type} (a : A) : result A := inr a.
Definition raise {A : Type} (e : exn) : result A := inl e.
Definition bind {A B : Type} (m : result A) (k : A -> result B) : result B :=
  match m with
  | inl e => inl e
  | inr a => k a
  end.

Notation "'try!' x := m 'in' k" := (bind m (fun x => k))
  (at level 10, x name, m at level 100, k at level 200).

(** The digits of a plain decimal literal, most significant first. *)
Fixpoint digits_value (acc : Z) (s : str) : option Z :=
  match s with
  | [] => Some acc
  | c :: s' =>
      if (48 <=? c) && (c <=? 57) then digits_value (10 * acc + (c - 48)) s'
      else None
  end.

(** The digit limit of [int] and [str] (4300 by default). *)
Definition max_str_digits : nat := 4300.

(** [sign? digit+] of at most [max_str_digits] characters, read in base
    ten *)
Definition plain_decimal (s : str) : option Z :=
  if bool_decide (length s ≤ max_str_digits)%nat then
    match s with
    | [] => None
    | c :: s' =>
        if c =? 45 then match s' with [] => None | _ => Z.opp <$> digits_value 0 s' end
        else if c =? 43 then match s' with [] => None | _ => digits_value 0 s' end
        else digits_value 0 s
    end
  else None.

Section Route.
Context {RT : PyRuntime}.

(** [int(row_index)] on a string *)
Definition py_int (s : str) : result Z :=
  match plain_decimal s with
  | Some n => ret n
  | None =>
      match int_other s with
      | Some n => ret n
      | None => raise ValueError
      end
  end.

(** [str(value)] *)
Definition py_str (value : json) : str :=
  match value with
  | JStr s => s
  | JInt n =>
      let digits := py (NilZero.string_of_int (Z.to_int n)) in
      if bool_decide (length digits ≤ max_str_digits)%nat then digits
      else str_other value
  | JBool true => py "True"
  | JBool false => py "False"
  | JNull => py "None"
  | _ => str_other value
  end.

(** [value.items()]: only a dict has them. *)
Definition items (value : json) : result (list (str * json)) :=
  match value with
  | JDict kvs => ret kvs
  | _ => raise AttributeError
  end.

(** The position [data[row_idx]] denotes in a list of length [n]: Python
    counts a negative index from the end. [None] is [IndexError]. *)
Definition py_index (n : nat) (row_idx : Z) : option nat :=
  if (0 <=? row_idx) && (row_idx <? Z.of_nat n) then Some (Z.to_nat row_idx)
  else if (row_idx <? 0) && (- Z.of_nat n <=? row_idx)
       then Some (Z.to_nat (Z.of_nat n + row_idx))
       else None.

(** [data[row_idx][key] = value], on the list the session holds *)
Definition setitem (data : list record) (row_idx : Z) (key value : str)
    : result (list record) :=
  match py_index (length data) row_idx with
  | Some i =>
      match data !! i with
      | Some row => ret (<[i := <[key := value]> row]> data)
      | None => raise IndexError
      end
  | None => raise IndexError
  end.

(** The columns the route writes to. *)
Definition editable_columns : list str :=
  [py "Principal_PassBook"; py "Principal_Variance"; py "CBU_PassBook";
   py "CBU_Variance"; py "CBU_withdraw_PassBook"; py "CBU_withdraw_Variance"].

(** [for key, value in updates.items(): ...] *)
Fixpoint apply_updates (data : list record) (row_idx : Z)
    (updates : list (str * json)) : result (list record) :=
  match updates with
  | [] => ret data
  | (key, value) :: rest =>
      if bool_decide (key ∈ editable_columns) then
        try! data' := setitem data row_idx key (py_str value) in
        apply_updates data' row_idx rest
      else apply_updates data row_idx rest
  end.

(** [for row_index, updates in update_data.items(): ...] *)
Fixpoint apply_edits (data : list record) (edits : list (str * json))
    : result (list record) :=
  match edits with
  | [] => ret data
  | (row_index, updates) :: rest =>
      try! row_idx := py_int row_index in
      if row_idx <? Z.of_nat (length data) then
        try! kvs := items updates in
        try! data' := apply_updates data row_idx kvs in
        apply_edits data' rest
      else apply_edits data rest
  end.

(** What the session keeps for one scrape. *)
Record scraped_info : Type := {
  data : list record;
  url : str;
  columns : list str
}.

Inductive response : Type :=
  | Success
  | SessionExpired
  | ServerError (e : exn).

(** The route. The edits are made on the list held by the request's copy
    of the session; the session is written back only by
    [session[data_key] = scraped_info], which an exception skips. *)
Definition update_data (session : gmap str scraped_info) (session_id : str)
    (body : json) : gmap str scraped_info * response :=
  let data_key := py "scraped_data_" ++ session_id in
  match session !! data_key with
  | None => (session, SessionExpired)
  | Some info =>
      match (try! edits := items body in apply_edits (data info) edits) with
      | inr data' =>
          (<[data_key := {| data := data'; url := url info; columns := columns info |}]> session,
           Success)
      | inl e => (session, ServerError e)
      end
  end.

End Route.

(** *** The [preview] and [download_excel] routes *)

(** What [preview] hands to its template, or the redirect of an expired
    session. *)
Inductive preview_response : Type :=
  | PreviewPage (data : list record) (url : str) (columns : list str)
      (session_id : str) (total_records : nat)
  | PreviewExpired.

Definition preview (session : gmap str scraped_info) (session_id : str)
    : preview_response :=
  let data_key := py "scraped_data_" ++ session_id in
  match session !! data_key with
  | None => PreviewExpired
  | Some scraped_info =>
      PreviewPage (data scraped_info) (url scraped_info) (columns scraped_info)
        session_id (length (data scraped_info))
  end.

(** The column order of the sheet. *)
Definition column_order : list str :=
  [py "Receipt No"; py "Date"; py "Principal"; py "Pen";
   py "Principal_PassBook"; py "Principal_Variance";
   py "CBU"; py "CBU_PassBook"; py "CBU_Variance"; py "CBU withdraw";
   py "CBU_withdraw_PassBook"; py "CBU_withdraw_Variance"; py "Collector"].

(** [for col in column_order: if col not in row: row[col] = ''] *)
Definition fill_missing (row : record) : record :=
  foldl (fun row col =>
           if bool_decide (row !! col = None) then <[col := []]> row else row)
        row column_order.

(** A pandas frame: its column labels and, row by row, the cells under
    them; [None] is a missing cell. *)
Record frame : Type := {
  frame_columns : list str;
  frame_rows : list (list (option str))
}.

(** The labels of [pd.DataFrame(data)]: the keys of the rows. pandas lists
    them by first appearance, an order a map does not keep; the route uses
    these labels only to test membership, and keeps their order only for a
    frame without rows. *)
Definition data_columns (data : list record) : list str :=
  elements (foldr (fun (row : record) (keys : gset str) => dom row ∪ keys) ∅ data).

(** [df[columns]] for [df = pd.DataFrame(data)] *)
Definition select_columns (data : list record) (columns : list str) : frame :=
  {| frame_columns := columns;
     frame_rows := (fun row : record => (fun col => row !! col) <$> columns) <$> data |}.

(** The frame the route writes to the sheet [Payment Data]: the rows with
    their missing columns filled, under [column_order]. *)
Definition sheet_frame (data : list record) : frame :=
  let data := fill_missing <$> data in
  let df_columns := data_columns data in
  let available_columns :=
    filter (fun col => col ∈ df_columns) column_order in
  if bool_decide (available_columns ≠ []) then select_columns data available_columns
  else select_columns data df_columns.

(** [old] replaced by [new] in [s], left to right, for a non-empty [old];
    [skip] characters of a match are still to be dropped. *)
Fixpoint replace_from (old new : str) (skip : nat) (s : str) : str :=
  match s with
  | [] => []
  | c :: s' =>
      match skip with
      | S k => replace_from old new k s'
      | O =>
          if startswith old s then new ++ replace_from old new (length old - 1) s'
          else c :: replace_from old new 0 s'
      end
  end.

Inductive download_response : Type :=
  | Attachment (download_name : str) (sheet : frame)
  | DownloadExpired.

Section Download.

(** [urlparse(url).netloc], which the standard library computes. *)
Variable netloc : str -> str.

(** The route, up to the workbook it sends: writing the file, the column
    widths and a failure of the writer are left out. The session entry is
    dropped once the workbook is written. *)
Definition download_excel (session : gmap str scraped_info) (session_id : str)
    : gmap str scraped_info * download_response :=
  let data_key := py "scraped_data_" ++ session_id in
  match session !! data_key with
  | None => (session, DownloadExpired)
  | Some scraped_info =>
      let df := sheet_frame (data scraped_info) in
      let domain := replace_from (py "www.") [] 0 (netloc (url scraped_info)) in
      let filename :=
        py "payment_data_" ++ domain ++ py "_" ++ take 8 session_id ++ py ".xlsx" in
      (delete data_key session, Attachment filename df)
  end.

End Download.
End App.

(** * The vocabulary of the statements *)

Import App.

Section Vocabulary.
Context {RT : PyRuntime}.

(** [keyword] occurs in [text]. *)
Definition occurs_in (text keyword : str) : Prop :=
  ∃ pre post, text = pre ++ keyword ++ post.

(** At least [n] distinct indicator keywords occur in [text]. *)
Definition indicators_present (n : nat) (text : str) : Prop :=
  ∃ keywords : list str,
    NoDup keywords ∧ (n ≤ length keywords)%nat
    ∧ ∀ k, k ∈ keywords → k ∈ payment_indicators ∧ occurs_in text k.

(** The five headers of the payment table. *)
Definition payment_headers : list str :=
  [py "Date"; py "Principal"; py "Pen"; py "CBU"; py "Collector"].

(** The field [k] of a row holds [v]: the non-empty cleaned text of a cell
    of the row that stands in a column mapped to [k]. *)
Definition populated_from (column_mapping : gmap nat str) (cells : list node)
    (k v : str) : Prop :=
  v ≠ [] ∧ ∃ i cell, cells !! i = Some cell ∧ column_mapping !! i = Some k
                     ∧ clean_cell cell = v.

(** The rows [_process_table] reads records from, and the headers and the
    mapping it reads them with. *)
Definition headers_of (table : node) : list str :=
  snd (find_header (find_all [py "tr"] table)).

Definition header_row_of (table : node) : option node :=
  fst (find_header (find_all [py "tr"] table)).

(** The targets some header position is mapped to. *)
Definition mapped_targets (column_mapping : gmap nat str) : gset str :=
  map_img column_mapping.

(** The records of [data] that no earlier record of [data] duplicates, in
    the order of [data]. *)
Definition keep_first (data : list record) : list record :=
  snd <$> filter (fun ir => signature (snd ir) ∉ signature <$> take (fst ir) data)
                 (enumerate data).

(** The field [k] with value [v] was read from [element]: the cleaned text
    of the element is [key : value] (cut at its first colon), the
    lower-cased key contains the lower-cased name of the target column [k],
    and [v] is the stripped value. *)
Definition field_of (element : node) (k v : str) : Prop :=
  k ∈ target_columns
  ∧ ∃ p0 p1, split1 58 (_clean_text (get_text element)) = [p0; p1]
             ∧ str_in (lower k) (lower (strip p0)) = true
             ∧ v = strip p1.

Definition field_from (elements : list node) (k v : str) : Prop :=
  ∃ element, element ∈ elements ∧ field_of element k v.

(** What the loop holds after reading [elements]: flushed records of two
    fields, a current record of at most one, every field read from one of
    the elements. *)
Definition fallback_inv (elements : list node) (st : list record * record) : Prop :=
  (size (snd st) ≤ 1)%nat
  ∧ Forall (fun r : record => size r = 2%nat) (fst st)
  ∧ ∀ r : record, r ∈ fst st ∨ r = snd st →
      ∀ k v, r !! k = Some v → field_from elements k v.

(** [r'] differs from [r] in editable columns only. *)
Definition edited (r r' : record) : Prop :=
  ∀ k, k ∉ editable_columns → r' !! k = r !! k.

Definition known_columns : list str := target_columns ++ calculated_columns.

(** Every key of the record is a target column or a calculated column. *)
Definition well_keyed (r : record) : Prop :=
  ∀ k, is_Some (r !! k) → k ∈ known_columns.

Definition session_well_keyed (session : gmap str scraped_info) : Prop :=
  ∀ key info, session !! key = Some info → Forall well_keyed (data info).

(** [row] ends the header search: it has header cells, or data cells of
    which one is bold or whose texts name a target column. *)
Definition is_header_row (row : node) : bool :=
  bool_decide (find_all [py "th"] row ≠ [])
  || bool_decide (find_all [py "td"] row ≠ [])
     && (bool_decide (0 < length (filter (fun cell => is_bold cell)
                                         (find_all [py "td"] row)))%nat
         || _contains_header_keywords (clean_cell <$> find_all [py "td"] row)).

(** The headers read from a header row: the texts of its header cells if
    it has any, of its data cells otherwise. *)
Definition headers_in (row : node) : list str :=
  if bool_decide (find_all [py "th"] row ≠ [])
  then clean_cell <$> find_all [py "th"] row
  else clean_cell <$> find_all [py "td"] row.

(** The header as the rules of the mapper read it. *)
Definition normalised (header : str) : str := strip (lower header).

(** No blank of [s] is followed by a blank. *)
Fixpoint no_double_blank (s : str) : bool :=
  match s with
  | c1 :: (c2 :: _) as rest => negb (isspace c1 && isspace c2) && no_double_blank rest
  | _ => true
  end.

(** The non-empty cleaned texts of the cells of a row that stand in a
    column mapped to [k], from left to right. *)
Definition populated_cells (column_mapping : gmap nat str) (cells : list node)
    (k : str) : list str :=
  omap (fun ic : nat * node =>
          if bool_decide (column_mapping !! fst ic = Some k)
             && truthy k && truthy (clean_cell (snd ic))
          then Some (clean_cell (snd ic)) else None)
       (enumerate cells).

End Vocabulary.

(** * Concrete pages and requests *)

(** A runtime for ASCII text: it knows no alphanumeric above 127 and
    leaves everything it is asked about as it is. The concrete pages below
    are ASCII, where no function consults it. *)
Definition ascii_only : PyRuntime :=
  {| isalnum_nonascii := fun _ => false;
     lower_nonascii := fun s => s;
     int_other := fun _ => None;
     str_other := fun _ => [] |}.

(** A page with a single block, [<p>Date: 2024-01-05</p>], and the record
    the fallback reads from it. *)
Definition one_field_page : node :=
  Tag (py "body") [] [Tag (py "p") [] [Text (py "Date: 2024-01-05")]].

Definition one_field_record : record := {[ py "Date" := py "2024-01-05" ]}.

Definition td (s : string) : node := Tag (py "td") [] [Text (py s)].
Definition th (s : string) : node := Tag (py "th") [] [Text (py s)].
Definition tr (cells : list node) : node := Tag (py "tr") [] cells.

Definition title_row : node := tr [td "Ledger"].
Definition notes_row : node := tr [td "n1"; td "n2"; td "n3"; td "n4"; td "n5"].
Definition header_row : node :=
  tr [th "Date"; th "Principal"; th "Pen"; th "CBU"; th "Collector"].
Definition payment_row : node :=
  tr [td "2024-01-05"; td "100"; td "5"; td "20"; td "Ann"].

(** A payment table whose header row is its third row: a title, a row of
    notes, the headers, one payment. *)
Definition titled_table : node :=
  Tag (py "table") [] [title_row; notes_row; header_row; payment_row].

(** The fields of a row of [titled_table], by column. *)
Definition five_fields (date principal pen cbu collector : string) : record :=
  list_to_map [(py "Date", py date); (py "Principal", py principal);
               (py "Pen", py pen); (py "CBU", py cbu);
               (py "Collector", py collector)].

(** The session after one scrape of two records. *)
Definition two_records : list record :=
  [add_calculated (five_fields "2024-01-05" "100" "5" "20" "Ann");
   add_calculated (five_fields "2024-02-05" "100" "0" "20" "Bob")].

Definition session_with (records : list record) : gmap str scraped_info :=
  {[ py "scraped_data_s1" :=
       {| data := records; url := py "http://example.org/ledger"; columns := [] |} ]}.

(** A table that the classifier accepts and that passes the column check
    of [_process_table] with three mapped header positions and two
    distinct targets. *)
Definition two_target_table : node :=
  Tag (py "table") []
    [Tag (py "caption") [] [Text (py "Payment receipt")];
     tr [th "Date"; th "Due Date"; th "Principal"];
     tr [td "2024-01-05"; td "2024-02-05"; td "100"]].

(** A table inside a cell of another table. *)
Definition inner_table : node := Tag (py "table") [] [tr [td "2024-01-05"]].
Definition outer_table : node :=
  Tag (py "table") [] [tr [Tag (py "td") [] [inner_table]]].
Definition nested_page : node := Tag (py "body") [] [outer_table].

(** A page whose only block has no colon. *)
Definition plain_page : node :=
  Tag (py "body") [] [Tag (py "p") [] [Text (py "No payments yet")]].

(** The host of every address, for the concrete downloads. *)
Definition example_netloc (url : str) : str := py "www.example.org".

(** * Proof tools *)

(** Closes [lhs = rhs] by evaluating both sides in the virtual machine. *)
Ltac vm_refl :=
  lazymatch goal with
  | |- ?lhs = ?rhs => vm_cast_no_check (@eq_refl _ rhs)
  end.

(** Closes a decidable proposition by evaluating its decision. *)
Ltac vm_decide := apply (bool_decide_unpack _); vm_cast_no_check I.

(** Splits a chain of [if]s at its next test. *)
Ltac next_rule :=
  match goal with
  | |- context [if ?b then _ else _] => destruct b eqn:?
  end.

(** * Properties *)

Example lower_ascii `{PyRuntime} : lower (py "CBU Withdraw") = py "cbu withdraw".
Proof. reflexivity. Qed.

Example split_example : split (py "  1,234.50   USD ") = [py "1,234.50"; py "USD"].
Proof. reflexivity. Qed.

Example clean_amount `{PyRuntime} :
  _clean_text (py " 1,234.50 USD ") = py "1,234.50 USD".
Proof. reflexivity. Qed.

Example map_header_withdraw `{PyRuntime} :
  map_header (py "CBU Withdraw") = Some (py "CBU withdraw")
  ∧ map_header (py "Pokok") = Some (py "Principal").
Proof. split; reflexivity. Qed.

(** ** Strings *)

Section StringFacts.

Lemma startswith_spec (p s : str) :
  startswith p s = true ↔ ∃ post, s = p ++ post.
Proof.
  revert s. induction p as [|a p IH]; intros s; simpl.
  - split; [intros _; by exists s | done].
  - destruct s as [|b s].
    + split; [done | intros [post Hpost]; discriminate].
    + rewrite andb_true_iff, IH, Z.eqb_eq. split.
      * intros [-> [post ->]]. by exists post.
      * intros [post Hpost]. injection Hpost as -> ->. eauto.
Qed.

(** [str_in] is the substring test. *)
Lemma str_in_spec (needle hay : str) :
  str_in needle hay = true ↔ ∃ pre post, hay = pre ++ needle ++ post.
Proof.
  induction hay as [|c hay IH]; simpl.
  - rewrite orb_false_r, startswith_spec. split.
    + intros [post Hpost]. by exists [], post.
    + intros [pre [post Hpp]]. symmetry in Hpp.
      apply app_eq_nil in Hpp as [-> Hpp]. eauto.
  - rewrite orb_true_iff, startswith_spec, IH. split.
    + intros [[post Hpost] | [pre [post Hpp]]].
      * by exists [], post.
      * exists (c :: pre), post. by rewrite Hpp.
    + intros [[|c' pre] [post Hpp]].
      * left. by exists post.
      * right. injection Hpp as -> ->. eauto.
Qed.

Lemma lstrip_suffix (s : str) : ∃ k, lstrip s = drop k s.
Proof.
  induction s as [|c s [k Hk]]; simpl.
  - by exists 0%nat.
  - destruct (isspace c); [by exists (S k) | by exists 0%nat].
Qed.

Lemma lstrip_head (s : str) (c : Z) : head (lstrip s) = Some c → isspace c = false.
Proof.
  induction s as [|d s IH]; simpl; [done|].
  destruct (isspace d) eqn:Hd; [done|]. simpl. by intros [= <-].
Qed.

Lemma rstrip_prefix (s : str) : ∃ k, rstrip s = take k s.
Proof.
  unfold rstrip. destruct (lstrip_suffix (reverse s)) as [k ->].
  exists (length s - k)%nat.
  by rewrite drop_reverse, reverse_involutive.
Qed.

Lemma rstrip_last (s : str) (c : Z) : last (rstrip s) = Some c → isspace c = false.
Proof.
  unfold rstrip. rewrite last_reverse. apply lstrip_head.
Qed.

Lemma head_take_Some (s : str) (k : nat) (c : Z) :
  head (take k s) = Some c → head s = Some c.
Proof. destruct s, k; simpl; congruence. Qed.

(** [s.strip()] starts and ends with a character that is not a blank. *)
Lemma strip_head (s : str) (c : Z) : head (strip s) = Some c → isspace c = false.
Proof.
  unfold strip. destruct (rstrip_prefix (lstrip s)) as [k ->].
  intros Hc%head_take_Some. by eapply lstrip_head.
Qed.

Lemma strip_last (s : str) (c : Z) : last (strip s) = Some c → isspace c = false.
Proof. apply rstrip_last. Qed.

Lemma elem_of_strip (s : str) (c : Z) : c ∈ strip s → c ∈ s.
Proof.
  unfold strip. destruct (rstrip_prefix (lstrip s)) as [k ->].
  destruct (lstrip_suffix s) as [j ->].
  intros Hc. eapply elem_of_sublist; [exact Hc|].
  etrans; [apply sublist_take | apply sublist_drop].
Qed.

End StringFacts.

(** ** The text cleaner *)

Section Cleaner.
Context {RT : PyRuntime}.

(** Every character of the cleaned text is one the pattern keeps. *)
Lemma clean_text_kept (text : str) (c : Z) :
  c ∈ _clean_text text → kept_char c = true.
Proof.
  unfold _clean_text. destruct (negb (truthy text)).
  - by intros ?%elem_of_nil.
  - intros Hc%elem_of_strip. apply list_elem_of_filter in Hc as [Hc _].
    by apply Is_true_true.
Qed.

(** The cleaned text neither starts nor ends with a blank. *)
Lemma clean_text_stripped (text : str) :
  (∀ c, head (_clean_text text) = Some c → isspace c = false)
  ∧ (∀ c, last (_clean_text text) = Some c → isspace c = false).
Proof.
  unfold _clean_text. destruct (negb (truthy text)); [done|].
  split; intros c; [apply strip_head | apply strip_last].
Qed.

End Cleaner.

(** C7. [_clean_text] collapses the blanks of its input before it removes
    the characters outside the whitelist, so a removed character that stood
    between two blanks leaves them side by side: the text [a # b] is
    cleaned to [a], two spaces, [b]. The cleaned text therefore can contain
    a run of two blanks, against the note "Remove extra whitespace and
    normalize" in the function. *)
Theorem clean_text_leaves_double_space `{PyRuntime} :
  _clean_text (py "a # b") = py "a  b"
  ∧ ∃ pre post, _clean_text (py "a # b") = pre ++ [32; 32] ++ post
                ∧ isspace 32 = true.
Proof.
  split; [reflexivity|].
  exists (py "a"), (py "b"). split; reflexivity.
Qed.

(** ** Folds over [enumerate] *)

Lemma enumerate_snoc {A : Type} (l : list A) (x : A) :
  enumerate (l ++ [x]) = enumerate l ++ [(length l, x)].
Proof.
  unfold enumerate. rewrite length_app, Nat.add_1_r, seq_S. simpl.
  rewrite zip_with_app by (by rewrite length_seq). done.
Qed.

Lemma enumerate_lookup {A : Type} (l : list A) (i j : nat) (x : A) :
  enumerate l !! i = Some (j, x) ↔ j = i ∧ l !! i = Some x.
Proof.
  unfold enumerate. rewrite lookup_zip_with_Some. split.
  - intros (j' & x' & [= -> ->] & Hj & Hx).
    apply lookup_seq in Hj as [-> _]. done.
  - intros [-> Hx]. exists i, x. split_and!; [done| |done].
    apply lookup_seq. split; [done|]. by eapply lookup_lt_Some.
Qed.

(** ** The table classifier and the header mapper *)

Section Classifier.
Context {RT : PyRuntime}.

Lemma payment_indicators_NoDup : NoDup payment_indicators.
Proof. vm_decide. Qed.

(** The mapping built by [_map_headers_to_targets] sends a position to
    the target of the header that stands there, if it has one. *)
Lemma map_headers_lookup (headers : list str) (i : nat) :
  _map_headers_to_targets headers !! i = headers !! i ≫= map_header.
Proof.
  unfold _map_headers_to_targets.
  induction headers as [|h headers IH] using rev_ind; [done|].
  rewrite enumerate_snoc, foldl_app. simpl.
  destruct (decide (i = length headers)) as [->|Hi].
  - rewrite list_lookup_middle by done. simpl.
    destruct (map_header h) as [target|] eqn:Hh.
    + by rewrite lookup_insert_eq.
    + rewrite IH, lookup_ge_None_2 by lia. done.
  - assert ((headers ++ [h]) !! i = headers !! i) as ->.
    { destruct (decide (i < length headers)%nat).
      - by rewrite lookup_app_l.
      - rewrite !lookup_ge_None_2; [done|lia|rewrite length_app; simpl; lia]. }
    destruct (map_header h); [rewrite lookup_insert_ne by done|]; apply IH.
Qed.

Lemma map_header_payment (h : str) :
  h ∈ payment_headers → map_header h = Some h.
Proof.
  unfold payment_headers. rewrite !elem_of_cons, elem_of_nil.
  intros [->|[->|[->|[->|[->|[]]]]]]; reflexivity.
Qed.

Lemma is_payment_table_spec (text : str) :
  _is_payment_table text = true ↔ indicators_present 4 text.
Proof.
  unfold _is_payment_table. rewrite bool_decide_eq_true. split.
  - intros Hlen.
    exists (filter (fun indicator => str_in indicator text) payment_indicators).
    split_and!; [apply NoDup_filter, payment_indicators_NoDup | done |].
    intros k [Hk Hin]%list_elem_of_filter. split; [done|].
    by apply str_in_spec, Is_true_true.
  - intros (keywords & Hnd & Hlen & Hks).
    etrans; [exact Hlen|]. apply submseteq_length, NoDup_submseteq; [done|].
    intros k [Hk Hocc]%Hks. apply list_elem_of_filter. split; [|done].
    by apply Is_true_true, str_in_spec.
Qed.

(** C3. The classifier accepts a text exactly when at least four distinct
    indicator keywords occur in it, and [_process_table] hands it the
    lower-cased full text of the table. For headers that are exactly Date,
    Principal, Pen, CBU and Collector (in any order) and a text with four
    indicators, the classifier accepts and the mapper sends every header
    position to the target column of that name, and no other position. *)
Theorem classifier_accepts_iff_four_indicators :
  (∀ text, _is_payment_table text = true ↔ indicators_present 4 text)
  ∧ (∀ table, ¬ indicators_present 4 (lower (get_text table)) →
              _process_table table = [])
  ∧ (∀ text headers,
       headers ≡ₚ payment_headers → indicators_present 4 text →
       _is_payment_table text = true
       ∧ ∀ i, _map_headers_to_targets headers !! i = headers !! i).
Proof.
  split_and!.
  - apply is_payment_table_spec.
  - intros table Hno. unfold _process_table.
    destruct (_is_payment_table (lower (get_text table))) eqn:Hacc; [|done].
    by apply is_payment_table_spec in Hacc.
  - intros text headers Hperm Hpresent. split; [by apply is_payment_table_spec|].
    intros i. rewrite map_headers_lookup.
    destruct (headers !! i) as [h|] eqn:Hh; [simpl|done].
    apply map_header_payment. rewrite <- Hperm. by eapply list_elem_of_lookup_2.
Qed.

End Classifier.

(** ** Row extraction *)

Section Rows.
Context {RT : PyRuntime}.

Lemma map_header_target (header target : str) :
  map_header header = Some target → target ∈ target_columns.
Proof.
  unfold map_header.
  repeat case_match; intros [= <-]; vm_decide.
Qed.

Lemma mapping_target (headers : list str) (i : nat) (target : str) :
  _map_headers_to_targets headers !! i = Some target → target ∈ target_columns.
Proof.
  rewrite map_headers_lookup. destruct (headers !! i) as [h|]; [simpl|done].
  apply map_header_target.
Qed.

Lemma target_not_calculated (k : str) :
  k ∈ target_columns → k ∉ calculated_columns.
Proof.
  unfold target_columns. rewrite !elem_of_cons, elem_of_nil.
  intros [->|[->|[->|[->|[->|[->|[->|[]]]]]]]];
    vm_decide.
Qed.

Lemma row_data_populated (column_mapping : gmap nat str) (cells : list node) (k v : str) :
  row_data_of column_mapping cells !! k = Some v →
  populated_from column_mapping cells k v.
Proof.
  unfold row_data_of.
  induction cells as [|cell cells IH] using rev_ind; [done|].
  rewrite enumerate_snoc, foldl_app. simpl.
  assert (populated_from column_mapping cells k v →
          populated_from column_mapping (cells ++ [cell]) k v) as Hmono.
  { intros (Hv & i & c & Hc & Hm & Hclean). split; [done|].
    exists i, c. split_and!; [|done..]. by apply lookup_app_l_Some. }
  destruct (column_mapping !! length cells) as [target|] eqn:Hm; [|by auto].
  destruct (truthy target && truthy (clean_cell cell)
            && bool_decide (clean_cell cell ≠ [])) eqn:Hcond; [|by auto].
  destruct (decide (target = k)) as [->|Hne].
  - rewrite lookup_insert_eq. intros [= <-].
    apply andb_true_iff in Hcond as [_ Hcond%bool_decide_eq_true].
    split; [done|]. exists (length cells), cell.
    split_and!; [|done..]. by apply list_lookup_middle.
  - rewrite lookup_insert_ne by done. auto.
Qed.

Lemma row_data_dom (column_mapping : gmap nat str) (cells : list node) :
  dom (row_data_of column_mapping cells) ⊆ map_img (SA:=gset str) column_mapping.
Proof.
  intros k [v Hv]%elem_of_dom.
  apply row_data_populated in Hv as (_ & i & _ & _ & Hm & _).
  apply elem_of_map_img. eauto.
Qed.

Lemma add_calculated_calculated (row_data : record) (c : str) :
  c ∈ calculated_columns → add_calculated row_data !! c = Some [].
Proof.
  unfold calculated_columns, add_calculated. rewrite !elem_of_cons, elem_of_nil.
  intros [->|[->|[->|[->|[->|[->|[]]]]]]];
    repeat (rewrite lookup_insert_ne by (by vm_compute)); by rewrite lookup_insert_eq.
Qed.

Lemma add_calculated_other (row_data : record) (k : str) :
  k ∉ calculated_columns → add_calculated row_data !! k = row_data !! k.
Proof.
  unfold calculated_columns, add_calculated. rewrite !not_elem_of_cons.
  intros (?&?&?&?&?&?&_). by rewrite !lookup_insert_ne.
Qed.

Lemma process_table_elem (table : node) (r : record) :
  r ∈ _process_table table →
  ∃ row, row ∈ data_rows_of (header_row_of table) (find_all [py "tr"] table)
         ∧ extract_row (_map_headers_to_targets (headers_of table)) (headers_of table) row
           = Some r.
Proof.
  unfold _process_table, headers_of, header_row_of.
  destruct (negb _); [by intros ?%elem_of_nil|].
  destruct (find_header _) as [header_row headers]. simpl.
  destruct (negb _); [by intros ?%elem_of_nil|].
  destruct (bool_decide _); [by intros ?%elem_of_nil|].
  intros (row & Hrow & Hr)%list_elem_of_omap. eauto.
Qed.

Lemma data_rows_sublist (header_row : option node) (all_rows : list node) :
  data_rows_of header_row all_rows `sublist_of` all_rows.
Proof. destruct header_row; [apply sublist_drop | done]. Qed.

(** C1. A table yields records only if its headers were mapped to at least
    three distinct target columns; a table whose headers map to two
    distinct target columns (or fewer) yields no record. The column check
    of [_process_table] counts mapped header positions; the rows of a
    table that passes it with fewer than three distinct targets are read,
    and none of them reaches three fields. *)
Theorem table_accepted_only_with_three_targets (table : node) :
  let distinct := size (mapped_targets (_map_headers_to_targets (headers_of table))) in
  (_process_table table ≠ [] → (3 ≤ distinct)%nat)
  ∧ ((distinct ≤ 2)%nat → _process_table table = []).
Proof.
  simpl.
  assert (∀ r, r ∈ _process_table table →
    (3 ≤ size (mapped_targets (_map_headers_to_targets (headers_of table))))%nat) as Hkey.
  { intros r (row & _ & Hr)%process_table_elem. unfold extract_row in Hr.
    case_bool_decide; [|done]. case_bool_decide as Hsize; [|done].
    etrans; [exact Hsize|]. rewrite <- size_dom.
    apply subseteq_size, row_data_dom. }
  split.
  - destruct (_process_table table) as [|r rs] eqn:Hp; [done|].
    intros _. apply (Hkey r), list_elem_of_here.
  - intros Hle. destruct (_process_table table) as [|r rs] eqn:Hp; [done|].
    specialize (Hkey r (list_elem_of_here _ _)). lia.
Qed.

(** C2. Every record of an accepted table comes from a row with as many
    cells as there are headers; it holds at least three target fields,
    each the non-empty cleaned text of a cell in a column mapped to it, and
    beside them the six calculated columns, each empty, and nothing else. *)
Theorem row_record_shape (table : node) (r : record) :
  r ∈ _process_table table →
  ∃ (row : node) (fields : record),
    let cells := find_all [py "td"; py "th"] row in
    let column_mapping := _map_headers_to_targets (headers_of table) in
    row ∈ find_all [py "tr"] table
    ∧ length cells = length (headers_of table)
    ∧ (3 ≤ size fields)%nat
    ∧ (∀ k v, fields !! k = Some v →
              k ∈ target_columns ∧ populated_from column_mapping cells k v)
    ∧ (∀ c, c ∈ calculated_columns → r !! c = Some [])
    ∧ (∀ k, k ∉ calculated_columns → r !! k = fields !! k).
Proof.
  intros (row & Hrow & Hr)%process_table_elem.
  unfold extract_row in Hr.
  case_bool_decide as Hlen; [|done]. case_bool_decide as Hsize; [|done].
  injection Hr as <-.
  exists row, (row_data_of (_map_headers_to_targets (headers_of table))
                 (find_all [py "td"; py "th"] row)).
  simpl. split_and!; [|done|done| | |].
  - eapply elem_of_sublist; [exact Hrow | apply data_rows_sublist].
  - intros k v Hkv. pose proof (row_data_populated _ _ _ _ Hkv) as Hpop.
    split; [|done]. destruct Hpop as (_ & i & _ & _ & Hm & _).
    by eapply mapping_target.
  - apply add_calculated_calculated.
  - apply add_calculated_other.
Qed.

End Rows.

(** ** De-duplication *)

Section Dedup.

(** Two records have the same signature exactly when they hold the same
    fields with the same values. *)
Lemma signature_inj (r1 r2 : record) : signature r1 = signature r2 ↔ r1 = r2.
Proof.
  split; [|by intros ->].
  unfold signature. intros Heq. apply map_to_list_inj.
  rewrite <- (merge_sort_Permutation item_le (map_to_list r1)).
  rewrite <- (merge_sort_Permutation item_le (map_to_list r2)).
  by rewrite Heq.
Qed.

Lemma filter_ext_elem {A : Type} (P Q : A → Prop)
    `{!∀ x, Decision (P x)} `{!∀ x, Decision (Q x)} (l : list A) :
  (∀ x, x ∈ l → P x ↔ Q x) → filter P l = filter Q l.
Proof.
  induction l as [|x l IH]; intros Hpq; [done|].
  rewrite !filter_cons.
  rewrite IH by (intros y Hy; apply Hpq; by right).
  pose proof (Hpq x (list_elem_of_here _ _)) as Hx.
  destruct (decide (P x)), (decide (Q x)); tauto.
Qed.

Lemma keep_first_snoc (data : list record) (item : record) :
  keep_first (data ++ [item])
  = keep_first data
    ++ (if bool_decide (signature item ∉ signature <$> data) then [item] else []).
Proof.
  unfold keep_first. rewrite enumerate_snoc, filter_app, fmap_app. f_equal.
  - f_equal. apply filter_ext_elem. intros [i r] Hir. simpl.
    apply list_elem_of_lookup in Hir as [j Hj].
    apply enumerate_lookup in Hj as [-> Hj]. apply lookup_lt_Some in Hj.
    by rewrite take_app_le by lia.
  - rewrite filter_cons, filter_nil. simpl.
    rewrite take_app_length.
    destruct (decide _); [by rewrite bool_decide_true | by rewrite bool_decide_false].
Qed.

(** What the loop of [_remove_duplicates] holds after reading [data]. *)
Lemma dedup_loop (data : list record) :
  foldl dedup_step (∅, []) data
  = (list_to_set (signature <$> data), keep_first data).
Proof.
  induction data as [|item data IH] using rev_ind; [done|].
  rewrite foldl_app, IH, keep_first_snoc. simpl.
  rewrite fmap_app, list_to_set_app_L. simpl.
  rewrite (bool_decide_ext (signature item ∉ list_to_set (signature <$> data))
                           (signature item ∉ signature <$> data))
    by (by rewrite elem_of_list_to_set).
  destruct (bool_decide _) eqn:Hseen; f_equal.
  - set_solver.
  - apply bool_decide_eq_false in Hseen.
    assert (signature item ∈ signature <$> data) by (by apply dec_stable).
    set_solver.
  - by rewrite app_nil_r.
Qed.

Lemma remove_duplicates_keep_first (data : list record) :
  _remove_duplicates data = keep_first data.
Proof. unfold _remove_duplicates. by rewrite dedup_loop. Qed.

Lemma keep_first_sublist (data : list record) : keep_first data `sublist_of` data.
Proof.
  unfold keep_first.
  assert (snd <$> enumerate data = data) as Hsnd.
  { unfold enumerate. apply snd_zip. by rewrite length_seq. }
  etrans; [apply fmap_sublist, sublist_filter|]. by rewrite Hsnd.
Qed.

Lemma keep_first_elem (data : list record) (r : record) :
  r ∈ keep_first data ↔ r ∈ data.
Proof.
  split; [intros Hr; eapply elem_of_sublist; [exact Hr | apply keep_first_sublist]|].
  induction data as [|item data IH] using rev_ind; [done|].
  rewrite keep_first_snoc, !elem_of_app, list_elem_of_singleton.
  intros [Hr | ->]; [by auto|].
  case_bool_decide as Hseen; [right; apply list_elem_of_here|].
  left. apply IH.
  apply list_elem_of_fmap in Hseen as (r' & Hsig & Hr').
  by apply signature_inj in Hsig as ->.
Qed.

Lemma keep_first_NoDup (data : list record) : NoDup (keep_first data).
Proof.
  induction data as [|item data IH] using rev_ind; [constructor|].
  rewrite keep_first_snoc. case_bool_decide as Hseen.
  - apply NoDup_app. split_and!; [done| |apply NoDup_singleton].
    intros r Hr ->%list_elem_of_singleton.
    apply (proj1 (keep_first_elem _ _)) in Hr.
    apply Hseen, list_elem_of_fmap. eauto.
  - by rewrite app_nil_r.
Qed.

Lemma remove_duplicates_elem (data : list record) (r : record) :
  r ∈ _remove_duplicates data ↔ r ∈ data.
Proof. rewrite remove_duplicates_keep_first. apply keep_first_elem. Qed.

(** C4. [_remove_duplicates] keeps, in their order, exactly the records
    that no earlier record of the list duplicates: the result is a
    sublist of the input without repetition that holds every record of the
    input. Two records are duplicates (same sorted tuple of items) exactly
    when they are equal field by field, so a record listed twice is kept
    once. *)
Theorem remove_duplicates_keeps_first_occurrences :
  (∀ data, _remove_duplicates data = keep_first data)
  ∧ (∀ data, _remove_duplicates data `sublist_of` data)
  ∧ (∀ data, NoDup (_remove_duplicates data))
  ∧ (∀ data r, r ∈ _remove_duplicates data ↔ r ∈ data)
  ∧ (∀ r1 r2 : record, signature r1 = signature r2 ↔ r1 = r2)
  ∧ (∀ before r between after,
       _remove_duplicates (before ++ [r] ++ between ++ [r] ++ after)
       = _remove_duplicates (before ++ [r] ++ between ++ after)).
Proof.
  split_and!.
  - apply remove_duplicates_keep_first.
  - intros data. rewrite remove_duplicates_keep_first. apply keep_first_sublist.
  - intros data. rewrite remove_duplicates_keep_first. apply keep_first_NoDup.
  - intros data r. rewrite remove_duplicates_keep_first. apply keep_first_elem.
  - apply signature_inj.
  - intros before r between after. unfold _remove_duplicates.
    rewrite !(assoc_L (++) _ _ after), !(assoc_L (++) before).
    rewrite !(foldl_app _ _ after). f_equal. f_equal.
    rewrite (assoc_L (++) (before ++ [r]) between [r]), foldl_app, !dedup_loop.
    simpl.
    rewrite bool_decide_false; [done|].
    intros Hnot. apply Hnot, elem_of_list_to_set, list_elem_of_fmap.
    exists r. split; [done|]. rewrite !elem_of_app, list_elem_of_singleton. tauto.
Qed.

End Dedup.

(** ** The structured-content fallback *)

Section Fallback.
Context {RT : PyRuntime}.

(** One turn of the loop: the current record gains at most one field, read
    from the element; it is flushed as soon as it has two. *)
Lemma structured_step_cases (data : list record) (current_record : record)
    (element : node) :
  ∃ current' : record,
    (∀ k v, current' !! k = Some v →
            current_record !! k = Some v ∨ field_of element k v)
    ∧ (size current_record ≤ size current' ≤ S (size current_record))%nat
    ∧ structured_step (data, current_record) element
      = if bool_decide (2 ≤ size current')%nat
        then (data ++ [current'], ∅) else (data, current').
Proof.
  unfold structured_step.
  match goal with
  | |- context [bool_decide (2 ≤ size ?c)%nat] => exists c
  end.
  split; [|split; [|done]].
  - intros k v. destruct (str_in (py ":") _); [|by auto].
    destruct (split1 58 _) as [|p0 [|p1 [|? ?]]] eqn:Hsplit; [by auto..| |by auto].
    destruct (List.find _ _) as [target|] eqn:Hfind; [|by auto].
    apply find_some in Hfind as [Hin Hmatch].
    destruct (decide (target = k)) as [->|Hne].
    + rewrite lookup_insert_eq. intros [= <-]. right.
      split; [by apply list_elem_of_In|]. by exists p0, p1.
    + rewrite lookup_insert_ne by done. auto.
  - destruct (str_in (py ":") _); [|lia].
    destruct (split1 58 _) as [|p0 [|p1 [|? ?]]]; [lia..| |lia].
    destruct (List.find _ _) as [target|]; [|lia].
    rewrite map_size_insert. destruct (current_record !! target); simpl; lia.
Qed.

Lemma fallback_loop (elements : list node) :
  fallback_inv elements (foldl structured_step ([], ∅) elements).
Proof.
  induction elements as [|element elements IH] using rev_ind.
  - unfold fallback_inv. simpl.
    split_and!; [rewrite map_size_empty; lia | constructor |].
    intros r [Hr%elem_of_nil | ->]; [done|]. intros k v. by rewrite lookup_empty.
  - rewrite foldl_app. cbn [foldl].
    destruct (foldl structured_step ([], ∅) elements) as [data current_record].
    destruct IH as (Hcur & Hdata & Hfields). cbn [fst snd] in *.
    destruct (structured_step_cases data current_record element)
      as (current' & Hnew & Hsize & ->).
    assert (∀ k v, field_from elements k v → field_from (elements ++ [element]) k v)
      as Hmono.
    { intros k v (e & He & Hf). exists e. split; [|done].
      apply elem_of_app. by left. }
    assert (∀ k v, current' !! k = Some v → field_from (elements ++ [element]) k v)
      as Hnew'.
    { intros k v [Hold | Hf]%Hnew.
      - eapply Hmono, Hfields; [by right | done].
      - exists element. split; [|done]. apply elem_of_app. right. apply list_elem_of_here. }
    unfold fallback_inv. case_bool_decide as Hfull; simpl.
    + split_and!; [rewrite map_size_empty; lia| |].
      * apply Forall_app. split; [done|]. apply Forall_singleton. lia.
      * intros r [[Hr | ->%list_elem_of_singleton]%elem_of_app | ->] k v Hkv.
        -- eapply Hmono, Hfields; [by left | done].
        -- by apply Hnew'.
        -- by rewrite lookup_empty in Hkv.
    + split_and!; [lia | done |].
      intros r [Hr | ->] k v Hkv.
      * eapply Hmono, Hfields; [by left | done].
      * by apply Hnew'.
Qed.

Lemma fallback_records (soup : node) (i : nat) (r : record) :
  _extract_from_structured_content soup !! i = Some r →
  (1 ≤ size r)%nat
  ∧ (S i < length (_extract_from_structured_content soup) → 2 ≤ size r)%nat
  ∧ ∀ k v, r !! k = Some v →
           field_from (find_all [py "div"; py "span"; py "p"] soup) k v.
Proof.
  unfold _extract_from_structured_content.
  pose proof (fallback_loop (find_all [py "div"; py "span"; py "p"] soup)) as Hinv.
  destruct (foldl structured_step _ _) as [data current_record].
  destruct Hinv as (Hcur & Hdata & Hfields). simpl in *.
  assert (∀ j r', data !! j = Some r' → size r' = 2%nat) as Hdata'.
  { intros j r' Hj. eapply Forall_lookup_1 in Hdata; [|exact Hj]. done. }
  case_bool_decide as Hrest.
  - intros Hi. rewrite length_app. simpl.
    destruct (decide (i < length data)%nat) as [Hlt|Hge].
    + rewrite lookup_app_l in Hi by done. rewrite (Hdata' _ _ Hi).
      split_and!; [lia..|]. apply Hfields. left. by eapply list_elem_of_lookup_2.
    + rewrite lookup_app_r in Hi by lia.
      apply list_lookup_singleton_Some in Hi as [Hi <-].
      split_and!; [|lia|apply Hfields; by right].
      apply map_size_non_empty_iff in Hrest. lia.
  - intros Hi. rewrite (Hdata' _ _ Hi).
    split_and!; [lia..|]. apply Hfields. left. by eapply list_elem_of_lookup_2.
Qed.

End Fallback.

(** ** The pipeline *)

Section Pipeline.
Context {RT : PyRuntime}.

Lemma scrape_from_tables (soup : node) :
  _extract_from_tables soup ≠ [] →
  scrape_payment_data soup = _remove_duplicates (_extract_from_tables soup).
Proof.
  intros Hne. unfold scrape_payment_data. by rewrite bool_decide_true.
Qed.

Lemma scrape_from_fallback (soup : node) :
  _extract_from_tables soup = [] →
  scrape_payment_data soup
  = _remove_duplicates (_extract_from_structured_content soup).
Proof.
  intros Hnil. unfold scrape_payment_data. rewrite Hnil.
  rewrite bool_decide_false by (intros Hne; by apply Hne). done.
Qed.

Lemma one_field_page_records :
  _extract_from_tables one_field_page = []
  ∧ _extract_from_structured_content one_field_page = [one_field_record].
Proof. split; vm_refl. Qed.

(** C6 (as amended). The fallback extractor contributes to the result only
    when table extraction yields no record. Every record it produces has
    at least one field, and every record but the last at least two; each
    field is a target column, read from a block whose cleaned text is
    [key: value] with the column name contained in the key, letter case
    ignored. *)
Theorem fallback_record_fields (soup : node) :
  (_extract_from_tables soup ≠ [] →
   scrape_payment_data soup = _remove_duplicates (_extract_from_tables soup))
  ∧ (_extract_from_tables soup = [] →
     scrape_payment_data soup
     = _remove_duplicates (_extract_from_structured_content soup))
  ∧ ∀ (i : nat) (r : record),
      _extract_from_structured_content soup !! i = Some r →
      (1 ≤ size r)%nat
      ∧ (S i < length (_extract_from_structured_content soup) → 2 ≤ size r)%nat
      ∧ ∀ k v, r !! k = Some v →
               field_from (find_all [py "div"; py "span"; py "p"] soup) k v.
Proof.
  split_and!.
  - apply scrape_from_tables.
  - apply scrape_from_fallback.
  - apply fallback_records.
Qed.

(** C9. A record produced by the fallback extractor holds none of the six
    calculated columns, and it reaches the result of the scrape as it is
    when no table yields a record. *)
Theorem fallback_records_lack_calculated (soup : node) (r : record) (c : str) :
  r ∈ _extract_from_structured_content soup →
  c ∈ calculated_columns →
  r !! c = None
  ∧ (_extract_from_tables soup = [] → r ∈ scrape_payment_data soup).
Proof.
  intros Hr Hc. split.
  - apply list_elem_of_lookup in Hr as [i Hi].
    apply fallback_records in Hi as (_ & _ & Hfields).
    destruct (r !! c) as [v|] eqn:Hv; [|done].
    apply Hfields in Hv as (_ & _ & Htarget & _).
    by apply target_not_calculated in Htarget.
  - intros Hnil. rewrite scrape_from_fallback by done.
    by apply remove_duplicates_elem.
Qed.

End Pipeline.

(** ** The header row and the data rows *)

(** C8. The data rows of [_process_table] are all rows but the first,
    wherever the header row was found. In [titled_table] the header row is
    the third row; the row of notes before it and the header row itself
    are both read as data rows and emitted as records, before the one
    payment. *)
Theorem header_row_emitted_when_not_first `{PyRuntime} :
  header_row_of titled_table = Some header_row
  ∧ find_all [py "tr"] titled_table
    = [title_row; notes_row; header_row; payment_row]
  ∧ _process_table titled_table
    = [add_calculated (five_fields "n1" "n2" "n3" "n4" "n5");
       add_calculated (five_fields "Date" "Principal" "Pen" "CBU" "Collector");
       add_calculated (five_fields "2024-01-05" "100" "5" "20" "Ann")].
Proof. split_and!; vm_refl. Qed.

(** ** User edits *)

(** C5. The route guards the index with [row_idx < len(data)] only, so a
    negative index passes and Python counts it from the end: the edit
    [{"-1": {"Principal_PassBook": "5"}}] on a session of two records is
    neither ignored nor rejected, it rewrites the field of the last
    record. *)
Theorem negative_index_edits_last_record `{PyRuntime} :
  update_data (session_with two_records) (py "s1")
    (JDict [(py "-1", JDict [(py "Principal_PassBook", JStr (py "5"))])])
  = (session_with
       [add_calculated (five_fields "2024-01-05" "100" "5" "20" "Ann");
        <[py "Principal_PassBook" := py "5"]>
          (add_calculated (five_fields "2024-02-05" "100" "0" "20" "Bob"))],
     Success).
Proof. vm_refl. Qed.

Section Edits.
Context {RT : PyRuntime}.

Lemma edited_refl (data : list record) : Forall2 edited data data.
Proof. apply Forall_Forall2_diag, Forall_forall. by intros r _ k _. Qed.

Lemma edited_trans (d1 d2 d3 : list record) :
  Forall2 edited d1 d2 → Forall2 edited d2 d3 → Forall2 edited d1 d3.
Proof.
  intros H12. revert d3. induction H12 as [|r1 r2 d1 d2 Hr _ IH]; intros d3 H23.
  - by apply Forall2_nil_inv_l in H23 as ->.
  - apply Forall2_cons_inv_l in H23 as (r3 & d3' & Hr' & H23 & ->).
    constructor; [|by apply IH].
    intros k Hk. by rewrite Hr', Hr.
Qed.

(** The assignment [data[row_idx][key] = value] rewrites one field of the
    record Python's indexing denotes, and nothing else. *)
Lemma setitem_ok (data data' : list record) (row_idx : Z) (key value : str) :
  setitem data row_idx key value = inr data' →
  ∃ i row, py_index (length data) row_idx = Some i ∧ data !! i = Some row
           ∧ data' = <[i := <[key := value]> row]> data.
Proof.
  unfold setitem. destruct (py_index _ _) as [i|]; [|done].
  destruct (data !! i) as [row|] eqn:Hrow; [|done].
  intros [= <-]. by exists i, row.
Qed.

Lemma setitem_edited (data data' : list record) (row_idx : Z) (key value : str) :
  key ∈ editable_columns →
  setitem data row_idx key value = inr data' →
  Forall2 edited data data'.
Proof.
  intros Hkey (i & row & _ & Hrow & ->)%setitem_ok.
  apply Forall2_same_length_lookup. split; [by rewrite length_insert|].
  intros j r r' Hr Hr'. destruct (decide (i = j)) as [->|Hne].
  - rewrite list_lookup_insert_eq in Hr' by (by eapply lookup_lt_Some).
    injection Hr' as <-. rewrite Hrow in Hr. injection Hr as <-.
    intros k Hk. rewrite lookup_insert_ne; [done|]. by intros ->.
  - rewrite list_lookup_insert_ne in Hr' by done.
    rewrite Hr in Hr'. injection Hr' as <-. by intros k _.
Qed.

Lemma apply_updates_edited (data data' : list record) (row_idx : Z)
    (updates : list (str * json)) :
  apply_updates data row_idx updates = inr data' → Forall2 edited data data'.
Proof.
  revert data. induction updates as [|[key value] rest IH]; intros data; simpl.
  - intros [= <-]. apply edited_refl.
  - case_bool_decide as Hkey; [|by apply IH].
    destruct (setitem data row_idx key (py_str value)) as [e|data1] eqn:Hset;
      simpl; [done|].
    intros Hrest%IH. eapply edited_trans; [|exact Hrest].
    by eapply setitem_edited.
Qed.

Lemma apply_edits_edited (data data' : list record) (edits : list (str * json)) :
  apply_edits data edits = inr data' → Forall2 edited data data'.
Proof.
  revert data. induction edits as [|[row_index updates] rest IH]; intros data; simpl.
  - intros [= <-]. apply edited_refl.
  - destruct (py_int row_index) as [e|row_idx]; simpl; [done|].
    destruct (row_idx <? Z.of_nat (length data)); [|by apply IH].
    destruct (items updates) as [e|kvs]; simpl; [done|].
    destruct (apply_updates data row_idx kvs) as [e|data1] eqn:Hupd; simpl; [done|].
    intros Hrest%IH. eapply edited_trans; [|exact Hrest].
    by eapply apply_updates_edited.
Qed.

(** An edit addressed past the end of the list is skipped. *)
Lemma apply_edits_past_end (data : list record) (row_index : str) (row_idx : Z)
    (updates : json) (rest : list (str * json)) :
  py_int row_index = inr row_idx → Z.of_nat (length data) ≤ row_idx →
  apply_edits data ((row_index, updates) :: rest) = apply_edits data rest.
Proof.
  intros Hint Hge. simpl. rewrite Hint. simpl.
  by rewrite (proj2 (Z.ltb_ge _ _)).
Qed.

(** An edit of a valid position rewrites that record only. *)
Lemma apply_updates_at (data data' : list record) (row_idx : Z)
    (updates : list (str * json)) (j : nat) :
  apply_updates data row_idx updates = inr data' →
  py_index (length data) row_idx ≠ Some j →
  data' !! j = data !! j.
Proof.
  revert data. induction updates as [|[key value] rest IH]; intros data; simpl.
  - by intros [= <-].
  - case_bool_decide as Hkey; [|by apply IH].
    destruct (setitem data row_idx key (py_str value)) as [e|data1] eqn:Hset;
      simpl; [done|].
    apply setitem_ok in Hset as (i & row & Hi & Hrow & ->).
    intros Hrest Hj. rewrite (IH _ Hrest) by (by rewrite length_insert).
    apply list_lookup_insert_ne. congruence.
Qed.

(** The route leaves the columns that are not editable as they were, in
    every record of every session entry; a request that raises leaves the
    session as it was. *)
Lemma update_data_frame (session : gmap str scraped_info) (session_id : str)
    (body : json) (key : str) (info' : scraped_info) :
  fst (update_data session session_id body) !! key = Some info' →
  ∃ info, session !! key = Some info ∧ Forall2 edited (data info) (data info').
Proof.
  unfold update_data.
  destruct (session !! (py "scraped_data_" ++ session_id)) as [info|] eqn:Hinfo.
  2:{ simpl. intros Hk. exists info'. split; [done|]. apply edited_refl. }
  destruct (items body) as [e|edits]; simpl.
  { intros Hk. exists info'. split; [done|]. apply edited_refl. }
  destruct (apply_edits (data info) edits) as [e|data'] eqn:Hedits; simpl.
  { intros Hk. exists info'. split; [done|]. apply edited_refl. }
  destruct (decide (py "scraped_data_" ++ session_id = key)) as [<-|Hne].
  - rewrite lookup_insert_eq. intros [= <-]. exists info. split; [done|].
    simpl. by eapply apply_edits_edited.
  - rewrite lookup_insert_ne by done.
    intros Hk. exists info'. split; [done|]. apply edited_refl.
Qed.

End Edits.

(** ** The columns of a record *)

Section Columns.
Context {RT : PyRuntime}.

Lemma table_record_well_keyed (table : node) (r : record) :
  r ∈ _process_table table → well_keyed r.
Proof.
  intros (row & _ & Hr)%process_table_elem k Hk. unfold extract_row in Hr.
  case_bool_decide; [|done]. case_bool_decide; [|done]. injection Hr as <-.
  apply elem_of_app.
  destruct (decide (k ∈ calculated_columns)) as [Hc|Hc]; [by right|left].
  rewrite add_calculated_other in Hk by done. destruct Hk as [v Hv].
  apply row_data_populated in Hv as (_ & i & _ & _ & Hm & _).
  by eapply mapping_target.
Qed.

Lemma fallback_record_well_keyed (soup : node) (r : record) :
  r ∈ _extract_from_structured_content soup → well_keyed r.
Proof.
  intros [i Hi]%list_elem_of_lookup k [v Hv].
  apply fallback_records in Hi as (_ & _ & Hfields).
  apply Hfields in Hv as (_ & _ & Htarget & _).
  apply elem_of_app. by left.
Qed.

Lemma tables_record_well_keyed (soup : node) (r : record) :
  r ∈ _extract_from_tables soup → well_keyed r.
Proof.
  unfold _extract_from_tables. rewrite list_elem_of_In, in_flat_map.
  intros (table & _ & Hr%list_elem_of_In). by eapply table_record_well_keyed.
Qed.

Lemma scrape_well_keyed (soup : node) (r : record) :
  r ∈ scrape_payment_data soup → well_keyed r.
Proof.
  unfold scrape_payment_data. rewrite remove_duplicates_elem.
  destruct (negb _).
  - rewrite elem_of_app.
    intros [Hr|Hr]; [by eapply tables_record_well_keyed
                    | by eapply fallback_record_well_keyed].
  - apply tables_record_well_keyed.
Qed.

Lemma edited_well_keyed (r r' : record) :
  edited r r' → well_keyed r → well_keyed r'.
Proof.
  intros Hed Hr k Hk.
  destruct (decide (k ∈ editable_columns)) as [Hc|Hc].
  - apply elem_of_app. by right.
  - apply Hr. by rewrite <- Hed.
Qed.

(** C10. Every record a scrape returns has its keys among the seven target
    columns and the six calculated columns. De-duplication keeps this, and
    so does every request to the edit route, whatever it holds. Values are
    strings throughout: a record is a map from [str] to [str], written by
    [_clean_text], [strip] and [py_str] only. *)
Theorem records_keep_known_columns :
  (∀ soup r, r ∈ scrape_payment_data soup → well_keyed r)
  ∧ (∀ data, Forall well_keyed data → Forall well_keyed (_remove_duplicates data))
  ∧ (∀ session session_id body,
       session_well_keyed session →
       session_well_keyed (fst (update_data session session_id body))).
Proof.
  split_and!.
  - apply scrape_well_keyed.
  - intros data Hdata. apply Forall_forall. intros r Hr.
    apply (proj1 (remove_duplicates_elem _ _)) in Hr.
    exact (proj1 (Forall_forall _ _) Hdata r Hr).
  - intros session session_id body Hs key info' Hinfo'.
    apply update_data_frame in Hinfo' as (info & Hinfo & Hed).
    specialize (Hs _ _ Hinfo).
    apply Forall_forall. intros r' Hr'.
    apply list_elem_of_lookup in Hr' as [j Hj].
    destruct (Forall2_lookup_r _ _ _ _ _ Hed Hj) as (r & Hr & Hrr').
    eapply edited_well_keyed; [exact Hrr'|].
    apply (proj1 (Forall_forall _ _) Hs r). by eapply list_elem_of_lookup_2.
Qed.

End Columns.

(** ** Witnesses *)

(** C6, counterexample. The page [<p>Date: 2024-01-05</p>] makes the
    fallback extractor return a record with the single field [Date]: the
    record left over when the loop ends is added whatever its size. *)
Lemma fallback_emits_single_field_record :
  ∃ (soup : node) (r : record),
    ∀ RT : PyRuntime,
      r ∈ @_extract_from_structured_content RT soup ∧ size r = 1%nat.
Proof.
  exists one_field_page, one_field_record. intros RT. split.
  - rewrite (proj2 one_field_page_records). apply list_elem_of_here.
  - vm_refl.
Qed.

(** C9, at the page [one_field_page]. *)
Lemma fallback_records_lack_calculated_witness :
  one_field_record !! py "Principal_PassBook" = None
  ∧ (_extract_from_tables (RT:=ascii_only) one_field_page = [] →
     one_field_record ∈ scrape_payment_data (RT:=ascii_only) one_field_page).
Proof.
  apply (fallback_records_lack_calculated (RT:=ascii_only) one_field_page).
  - rewrite (proj2 one_field_page_records). apply list_elem_of_here.
  - vm_decide.
Defined.

(** C1, at [two_target_table]: no record. *)
Lemma table_accepted_only_with_three_targets_witness :
  _is_payment_table (lower (RT:=ascii_only) (get_text two_target_table))
  = true
  ∧ mapped_count (_map_headers_to_targets (RT:=ascii_only)
                  (headers_of (RT:=ascii_only) two_target_table)) = 3%nat
  ∧ _process_table (RT:=ascii_only) two_target_table = [].
Proof.
  split_and!; [vm_refl..|].
  apply (proj2 (table_accepted_only_with_three_targets (RT:=ascii_only) _)).
  vm_decide.
Defined.

(** C2, at the payment row of [titled_table]. *)
Lemma row_record_shape_witness :
  let RT : PyRuntime := ascii_only in
  let r := add_calculated (five_fields "2024-01-05" "100" "5" "20" "Ann") in
  ∃ (row : node) (fields : record),
    let cells := find_all [py "td"; py "th"] row in
    let column_mapping := _map_headers_to_targets (headers_of titled_table) in
    row ∈ find_all [py "tr"] titled_table
    ∧ length cells = length (headers_of titled_table)
    ∧ (3 ≤ size fields)%nat
    ∧ (∀ k v : str, fields !! k = Some v →
                    k ∈ target_columns ∧ populated_from column_mapping cells k v)
    ∧ (∀ c : str, c ∈ calculated_columns → r !! c = Some [])
    ∧ (∀ k : str, k ∉ calculated_columns → r !! k = fields !! k).
Proof.
  apply (row_record_shape (RT:=ascii_only) titled_table). vm_decide.
Defined.

(** C3, at the text of a table with the five headers. *)
Lemma classifier_accepts_payment_headers_witness :
  _is_payment_table (py "dateprincipalpencbucollector") = true
  ∧ ∀ i, _map_headers_to_targets (RT:=ascii_only) payment_headers !! i
         = payment_headers !! i.
Proof.
  apply (proj2 (proj2 (classifier_accepts_iff_four_indicators (RT:=ascii_only)))).
  - done.
  - apply is_payment_table_spec. vm_refl.
Defined.

(** * Further properties of the code *)

(** X1. The cleaned text holds only characters of the whitelist (word
    characters, blanks, the four currency signs and [.,:-/()%]) and has no
    blank at either end. *)
Theorem clean_text_whitelisted_and_stripped `{PyRuntime} (text : str) :
  (∀ c, c ∈ _clean_text text → kept_char c = true)
  ∧ (∀ c, head (_clean_text text) = Some c → isspace c = false)
  ∧ (∀ c, last (_clean_text text) = Some c → isspace c = false).
Proof.
  split; [apply clean_text_kept | apply clean_text_stripped].
Qed.

(** The examples of the specification: an amount keeps its
    punctuation and loses the blanks around it; [CBU Withdraw] is mapped to
    [CBU withdraw] and [Pokok] to [Principal]. *)
Theorem specification_examples `{PyRuntime} :
  _clean_text (py " 1,234.50 USD ") = py "1,234.50 USD"
  ∧ map_header (py "CBU Withdraw") = Some (py "CBU withdraw")
  ∧ map_header (py "Pokok") = Some (py "Principal").
Proof. split_and!; reflexivity. Qed.

(** X3. The header mapper works position by position: a position is mapped
    to the target of the first rule its header matches, and left out when
    no rule matches. *)
Theorem header_mapping_positionwise `{PyRuntime} (headers : list str) (i : nat) :
  _map_headers_to_targets headers !! i = headers !! i ≫= map_header.
Proof. apply map_headers_lookup. Qed.

(** X4. The records of a table are read from its rows after the first
    one, in order, whichever row the headers were found in. *)
Theorem data_rows_are_all_but_first `{PyRuntime} (table : node) :
  _process_table table = []
  ∨ _process_table table
    = omap (extract_row (_map_headers_to_targets (headers_of table))
              (headers_of table))
           (drop 1 (find_all [py "tr"] table)).
Proof.
  unfold _process_table, headers_of.
  destruct (negb _); [by left|].
  destruct (find_header _) as [found headers] eqn:Hfound.
  destruct (negb _) eqn:Hheaders; [by left|]. cbn [snd].
  destruct (bool_decide (mapped_count _ < 3)%nat); [by left|]. right.
  destruct found as [row|]; [done|].
  assert (∀ rows, fst (find_header rows) = None → snd (find_header rows) = [])
    as Hnone.
  { induction rows as [|r rows IH]; simpl; [done|].
    repeat case_match; simpl; by auto. }
  specialize (Hnone (find_all [py "tr"] table)). rewrite Hfound in Hnone.
  simpl in Hnone. rewrite Hnone in Hheaders by done.
  by rewrite bool_decide_false in Hheaders by (by intros ?).
Qed.

Section EditFacts.
Context {RT : PyRuntime}.

(** X5. A request changes nothing but editable columns: every record the
    session holds after the request agrees with the record it held before
    on every other column, whether the request succeeded or not. *)
Theorem update_data_edits_editable_columns_only
    (session : gmap str scraped_info) (session_id : str) (body : json)
    (key : str) (info' : scraped_info) :
  fst (update_data session session_id body) !! key = Some info' →
  ∃ info, session !! key = Some info
          ∧ Forall2 (fun r r' : record =>
                       ∀ k, k ∉ editable_columns → r' !! k = r !! k)
                    (data info) (data info').
Proof. apply update_data_frame. Qed.

(** X6. An edit whose index is not below zero and not below the number of
    records is skipped. *)
Theorem edit_past_end_ignored (data : list record) (row_index : str)
    (row_idx : Z) (updates : json) :
  py_int row_index = inr row_idx → Z.of_nat (length data) ≤ row_idx →
  apply_edits data [(row_index, updates)] = inr data.
Proof. intros Hint Hge. by rewrite (apply_edits_past_end _ _ row_idx). Qed.

(** X7. Writing one editable column of the record at a valid position
    rewrites that field of that record, and nothing else. *)
Theorem edit_one_field (data : list record) (i : nat) (row : record)
    (key : str) (value : json) :
  data !! i = Some row → key ∈ editable_columns →
  apply_updates data (Z.of_nat i) [(key, value)]
  = inr (<[i := <[key := py_str value]> row]> data).
Proof.
  intros Hrow Hkey. simpl. rewrite bool_decide_true by done.
  unfold setitem, py_index.
  pose proof (lookup_lt_Some _ _ _ Hrow) as Hlt.
  rewrite (proj2 (Z.leb_le _ _)) by lia. rewrite (proj2 (Z.ltb_lt _ _)) by lia.
  simpl. rewrite Nat2Z.id, Hrow. done.
Qed.

(** X9. An edit of an editable column whose index lies below [-len(data)]
    raises [IndexError], and a request that raises leaves the session as it
    was. *)
Theorem edit_below_range_rejected (data : list record) (row_index : str)
    (row_idx : Z) (key : str) (value : json) :
  py_int row_index = inr row_idx → row_idx < - Z.of_nat (length data) →
  key ∈ editable_columns →
  apply_edits data [(row_index, JDict [(key, value)])] = inl IndexError
  ∧ ∀ session session_id body e,
      snd (update_data session session_id body) = ServerError e →
      fst (update_data session session_id body) = session.
Proof.
  intros Hint Hlow Hkey. split.
  - simpl. rewrite Hint. simpl. rewrite (proj2 (Z.ltb_lt _ _)) by lia. simpl.
    rewrite bool_decide_true by done. unfold setitem, py_index.
    rewrite (proj2 (Z.leb_gt _ _)) by lia. simpl.
    rewrite (proj2 (Z.ltb_lt _ _)) by lia. simpl.
    by rewrite (proj2 (Z.leb_gt _ _)) by lia.
  - intros session session_id body e. unfold update_data.
    destruct (session !! _); [|done].
    by destruct (bind _ _).
Qed.

(** X10. A negative index that Python accepts counts from the end: an edit
    at [i - len(data)] rewrites the record at position [i]. *)
Theorem negative_index_counts_from_end (data : list record) (i : nat)
    (row : record) (key : str) (value : json) :
  data !! i = Some row → key ∈ editable_columns →
  apply_updates data (Z.of_nat i - Z.of_nat (length data)) [(key, value)]
  = inr (<[i := <[key := py_str value]> row]> data).
Proof.
  intros Hrow Hkey. simpl. rewrite bool_decide_true by done.
  unfold setitem, py_index.
  pose proof (lookup_lt_Some _ _ _ Hrow) as Hlt.
  rewrite (proj2 (Z.leb_gt _ _)) by lia. simpl.
  rewrite (proj2 (Z.ltb_lt _ _)) by lia. rewrite (proj2 (Z.leb_le _ _)) by lia.
  simpl.
  replace (Z.of_nat (length data) + (Z.of_nat i - Z.of_nat (length data)))
    with (Z.of_nat i) by lia.
  rewrite Nat2Z.id, Hrow. done.
Qed.

End EditFacts.

(** X5, at a request that names a column outside the whitelist. *)
Lemma update_data_edits_editable_columns_only_witness :
  ∃ info, session_with two_records !! py "scraped_data_s1" = Some info
          ∧ Forall2 (fun r r' : record =>
                       ∀ k, k ∉ editable_columns → r' !! k = r !! k)
                    (data info) two_records.
Proof.
  apply (update_data_edits_editable_columns_only (RT:=ascii_only)
           (session_with two_records) (py "s1")
           (JDict [(py "0", JDict [(py "Principal", JStr (py "999"))])])
           (py "scraped_data_s1")
           {| data := two_records; url := py "http://example.org/ledger";
              columns := [] |}).
  vm_refl.
Defined.

(** X6, at the index 2 of a list of two records. *)
Lemma edit_past_end_ignored_witness :
  apply_edits (RT:=ascii_only) two_records
    [(py "2", JDict [(py "Principal_PassBook", JStr (py "5"))])]
  = inr two_records.
Proof.
  apply (edit_past_end_ignored (RT:=ascii_only) two_records (py "2") 2).
  - vm_refl.
  - vm_decide.
Defined.

(** X7, at the first record: its [Principal_PassBook] becomes [5]. *)
Lemma edit_one_field_witness :
  apply_updates (RT:=ascii_only) two_records 0
    [(py "Principal_PassBook", JStr (py "5"))]
  = inr (<[0%nat := <[py "Principal_PassBook" := py "5"]>
                      (add_calculated (five_fields "2024-01-05" "100" "5" "20" "Ann"))]>
           two_records).
Proof.
  apply (edit_one_field (RT:=ascii_only) two_records 0
           (add_calculated (five_fields "2024-01-05" "100" "5" "20" "Ann"))
           (py "Principal_PassBook") (JStr (py "5"))).
  - vm_refl.
  - vm_decide.
Defined.

(** ** The order of [sorted] *)

Section ItemOrder.

Lemma str_ltb_irrefl (a : str) : str_ltb a a = false.
Proof.
  induction a as [|x a IH]; simpl; [done|].
  rewrite IH, Z.ltb_irrefl, Z.eqb_refl. done.
Qed.

Lemma str_ltb_trichotomy (a b : str) :
  str_ltb a b = true ∨ a = b ∨ str_ltb b a = true.
Proof.
  revert b. induction a as [|x a IH]; intros [|y b]; simpl; [by auto..|].
  destruct (Z.lt_trichotomy x y) as [Hlt|[->|Hgt]].
  - left. by rewrite (proj2 (Z.ltb_lt _ _) Hlt).
  - rewrite Z.ltb_irrefl, Z.eqb_refl. simpl.
    destruct (IH b) as [?|[->|?]]; by auto.
  - right. right. by rewrite (proj2 (Z.ltb_lt _ _) Hgt).
Qed.

Lemma str_ltb_trans (a b c : str) :
  str_ltb a b = true → str_ltb b c = true → str_ltb a c = true.
Proof.
  revert b c. induction a as [|x a IH]; intros [|y b] [|z c]; simpl; try done.
  rewrite !orb_true_iff, !andb_true_iff, !Z.ltb_lt, !Z.eqb_eq.
  intros [Hxy|[-> Hab]] [Hyz|[-> Hbc]]; [left; lia|by left|by left|].
  right. split; [done|]. by eapply IH.
Qed.

Lemma str_ltb_asym (a b : str) : str_ltb a b = true → str_ltb b a = false.
Proof.
  intros Hab. destruct (str_ltb b a) eqn:Hba; [|done].
  pose proof (str_ltb_trans _ _ _ Hab Hba) as Haa.
  by rewrite str_ltb_irrefl in Haa.
Qed.

Lemma item_ltb_spec (a b : str * str) :
  item_ltb a b = true
  ↔ str_ltb (fst a) (fst b) = true
    ∨ (fst a = fst b ∧ str_ltb (snd a) (snd b) = true).
Proof.
  unfold item_ltb.
  by rewrite orb_true_iff, andb_true_iff, bool_decide_eq_true.
Qed.

Lemma item_ltb_irrefl (a : str * str) : item_ltb a a = false.
Proof.
  apply not_true_iff_false. rewrite item_ltb_spec, !str_ltb_irrefl.
  by intros [?|[_ ?]].
Qed.

Lemma item_ltb_trichotomy (a b : str * str) :
  item_ltb a b = true ∨ a = b ∨ item_ltb b a = true.
Proof.
  rewrite !item_ltb_spec. destruct a as [ka va], b as [kb vb]. simpl.
  destruct (str_ltb_trichotomy ka kb) as [?|[->|?]]; [by auto| |by auto].
  destruct (str_ltb_trichotomy va vb) as [?|[->|?]]; by auto.
Qed.

Lemma item_ltb_trans (a b c : str * str) :
  item_ltb a b = true → item_ltb b c = true → item_ltb a c = true.
Proof.
  rewrite !item_ltb_spec.
  intros [Hab|[Hab Hab']] [Hbc|[Hbc Hbc']].
  - left. by eapply str_ltb_trans.
  - left. by rewrite <- Hbc.
  - left. by rewrite Hab.
  - right. split; [congruence|]. by eapply str_ltb_trans.
Qed.

Lemma item_le_total : Total item_le.
Proof.
  intros a b. unfold item_le.
  destruct (item_ltb b a) eqn:Hba; [right|by left].
  destruct (item_ltb a b) eqn:Hab; [|done].
  pose proof (item_ltb_trans _ _ _ Hab Hba) as Haa.
  by rewrite item_ltb_irrefl in Haa.
Qed.

Lemma item_le_antisymm : AntiSymm (=) item_le.
Proof.
  intros a b Hab Hba. unfold item_le in *.
  destruct (item_ltb_trichotomy a b) as [?|[?|?]]; congruence.
Qed.

Lemma item_le_trans : Transitive item_le.
Proof.
  intros a b c Hab Hbc. unfold item_le in *.
  destruct (item_ltb c a) eqn:Hca; [|done].
  destruct (item_ltb_trichotomy a b) as [Hlt|[->|Hgt]]; [|congruence..].
  pose proof (item_ltb_trans _ _ _ Hca Hlt). congruence.
Qed.

(** X8. The signature of a record is the sorted list of its items, and it
    does not depend on the order in which the dict yields them: sorting
    any arrangement of the items gives the signature. *)
Theorem signature_sorted_any_order (item : record) :
  Sorted item_le (signature item)
  ∧ signature item ≡ₚ map_to_list item
  ∧ ∀ items : list (str * str),
      items ≡ₚ map_to_list item → merge_sort item_le items = signature item.
Proof.
  pose proof item_le_total as Htotal.
  pose proof item_le_antisymm as Hantisymm.
  pose proof item_le_trans as Htrans.
  unfold signature. split_and!.
  - apply (Sorted_merge_sort item_le).
  - apply merge_sort_Permutation.
  - intros items Hperm.
    apply (Sorted_unique item_le); [apply (Sorted_merge_sort item_le)..|].
    by rewrite !merge_sort_Permutation.
Qed.

End ItemOrder.

(** X9, at the index -3 of a list of two records. *)
Lemma edit_below_range_rejected_witness :
  apply_edits (RT:=ascii_only) two_records
    [(py "-3", JDict [(py "Principal_PassBook", JStr (py "5"))])]
  = inl IndexError
  ∧ ∀ session session_id body e,
      snd (update_data (RT:=ascii_only) session session_id body) = ServerError e →
      fst (update_data (RT:=ascii_only) session session_id body) = session.
Proof.
  apply (edit_below_range_rejected (RT:=ascii_only) two_records (py "-3") (-3)).
  - vm_refl.
  - vm_decide.
  - vm_decide.
Defined.

(** X10, at the last of two records, addressed as -1. *)
Lemma negative_index_counts_from_end_witness :
  apply_updates (RT:=ascii_only) two_records (-1)
    [(py "Principal_PassBook", JStr (py "5"))]
  = inr (<[1%nat := <[py "Principal_PassBook" := py "5"]>
                      (add_calculated (five_fields "2024-02-05" "100" "0" "20" "Bob"))]>
           two_records).
Proof.
  apply (negative_index_counts_from_end (RT:=ascii_only) two_records 1
           (add_calculated (five_fields "2024-02-05" "100" "0" "20" "Bob"))
           (py "Principal_PassBook") (JStr (py "5"))).
  - vm_refl.
  - vm_decide.
Defined.

(** ** Further witnesses *)

(** C4, at a list that repeats its first record after another one. *)
Lemma remove_duplicates_witness :
  _remove_duplicates ([] ++ [one_field_record] ++ two_records
                      ++ [one_field_record] ++ [])
  = _remove_duplicates ([] ++ [one_field_record] ++ two_records ++ []).
Proof.
  apply (proj2 (proj2 (proj2 (proj2 (proj2
           remove_duplicates_keeps_first_occurrences))))).
Defined.

(** C6, at the only record of [one_field_page]. *)
Lemma fallback_record_fields_witness :
  (1 ≤ size one_field_record)%nat
  ∧ (1 < length (_extract_from_structured_content (RT:=ascii_only) one_field_page)
     → 2 ≤ size one_field_record)%nat
  ∧ ∀ k v, one_field_record !! k = Some v →
           field_from (RT:=ascii_only)
             (find_all [py "div"; py "span"; py "p"] one_field_page) k v.
Proof.
  apply (proj2 (proj2 (fallback_record_fields (RT:=ascii_only) one_field_page)) 0%nat).
  by rewrite (proj2 one_field_page_records).
Defined.

(** * Further properties: the header search and the header rules *)

Section HeaderSearch.
Context {RT : PyRuntime}.

Lemma find_header_step (row : node) (rest : list node) :
  find_header (row :: rest)
  = if is_header_row row then (Some row, headers_in row) else find_header rest.
Proof.
  simpl. unfold is_header_row, headers_in.
  destruct (bool_decide (find_all [py "th"] row ≠ [])); [done|]. simpl.
  by destruct (bool_decide (find_all [py "td"] row ≠ [])
               && (bool_decide (0 < length (filter (fun cell => is_bold cell)
                                              (find_all [py "td"] row)))%nat
                   || _contains_header_keywords
                        (clean_cell <$> find_all [py "td"] row))).
Qed.

Lemma headers_in_nonempty (row : node) :
  is_header_row row = true → headers_in row ≠ [].
Proof.
  unfold is_header_row, headers_in.
  case_bool_decide as Hth.
  - intros _ Hnil%fmap_nil_inv. done.
  - simpl. intros [Htd%bool_decide_eq_true _]%andb_true_iff Hnil%fmap_nil_inv. done.
Qed.

(** X11. The header row is the first row of the table that has header
    cells, or data cells of which one is bold or names a target column; its
    headers are the texts of its header cells if it has any, of its data
    cells otherwise, and there is at least one. Without such a row there is
    no header row and no header. *)
Theorem header_row_is_first_candidate (rows : list node) :
  match find_header rows with
  | (Some row, headers) =>
      ∃ before after,
        rows = before ++ row :: after
        ∧ (∀ r, r ∈ before → is_header_row r = false)
        ∧ is_header_row row = true
        ∧ headers = headers_in row ∧ headers ≠ []
  | (None, headers) =>
      headers = [] ∧ ∀ r, r ∈ rows → is_header_row r = false
  end.
Proof.
  induction rows as [|row rows IH].
  - simpl. split; [done|]. by intros r ?%elem_of_nil.
  - rewrite find_header_step. destruct (is_header_row row) eqn:Hrow.
    + exists [], rows. split_and!; [done| |done|done|by apply headers_in_nonempty].
      by intros r ?%elem_of_nil.
    + destruct (find_header rows) as [[found|] headers].
      * destruct IH as (before & after & -> & Hbefore & Hfound & Hheaders).
        exists (row :: before), after. split_and!; [done| |done|apply Hheaders..].
        intros r [->|Hr]%elem_of_cons; by auto.
      * destruct IH as [-> Hnone]. split; [done|].
        intros r [->|Hr]%elem_of_cons; by auto.
Qed.

Lemma map_header_normalised (h1 h2 : str) :
  normalised h1 = normalised h2 → map_header h1 = map_header h2.
Proof.
  unfold normalised, map_header. intros Heq. cbv zeta. rewrite Heq.
  destruct (bool_decide (strip (lower h2) = py "pen")); reflexivity.
Qed.

(** X12. The header rules ignore letter case and blanks around the
    header: two headers with the same lower-cased, stripped form are mapped
    alike. (The one test on the raw header, [len(header) <= 5], stands
    behind [header_lower == 'pen'], which an earlier rule has taken.) *)
Theorem header_rules_ignore_case_and_blanks (h1 h2 : str) :
  strip (lower h1) = strip (lower h2) → map_header h1 = map_header h2.
Proof. apply map_header_normalised. Qed.

Lemma map_header_cases (h target : str) :
  map_header h = Some target →
  let hl := normalised h in
  (target = py "Date" ∧ str_in (py "date") hl = true ∧ (length hl ≤ 10)%nat)
  ∨ (target = py "Receipt No"
     ∧ hl ∈ [py "receipt no"; py "receipt"; py "receipt number"; py "ref no";
             py "reference"; py "transaction id"])
  ∨ (target = py "Pen" ∧ hl ∈ [py "pen"; py "penalty"; py "denda"])
  ∨ target ∈ [py "Principal"; py "CBU"; py "CBU withdraw"; py "Collector"].
Proof.
  unfold map_header, normalised. cbv zeta.
  remember (strip (lower h)) as hl eqn:Hhl. clear Hhl.
  repeat next_rule; intros [= <-];
    repeat match goal with
           | H : bool_decide _ = true |- _ => apply bool_decide_eq_true in H
           | H : _ && _ = true |- _ => apply andb_true_iff in H as [? ?]
           | H : _ || _ = true |- _ => apply orb_true_iff in H as [?|?]
           end;
    subst;
    first [ left; split_and!; [reflexivity | done || reflexivity | done || vm_decide]
          | right; left; by split
          | right; right; left; split; [reflexivity | set_solver]
          | right; right; right; vm_decide ].
Qed.

Lemma map_header_exact (h name : str) :
  normalised h = name → normalised name = name →
  map_header h = map_header name.
Proof. intros Hh Hname. apply map_header_normalised. by rewrite Hh, Hname. Qed.

Lemma map_header_date (h : str) :
  str_in (py "date") (normalised h) = true → (length (normalised h) ≤ 10)%nat →
  map_header h = Some (py "Date").
Proof.
  unfold map_header, normalised. cbv zeta.
  remember (strip (lower h)) as hl eqn:Hhl. clear Hhl. intros Hin Hlen.
  repeat next_rule; try reflexivity; exfalso;
    repeat match goal with
           | H : bool_decide _ = true |- _ => apply bool_decide_eq_true in H
           end;
    first [ match goal with
            | H : str_in (py "date") hl && _ = false |- _ =>
                rewrite Hin, (bool_decide_true _ Hlen) in H; discriminate H
            end
          | match goal with
            | H : hl = _ |- _ => subst hl; vm_compute in Hin; discriminate Hin
            | H : hl ∈ _ |- _ =>
                repeat (apply elem_of_cons in H as [->|H];
                        [vm_compute in Hin; discriminate Hin|]);
                by apply elem_of_nil in H
            end ].
Qed.

(** X13. Three of the targets are chosen by one rule each. A header is
    mapped to [Date] exactly when its normalised form contains [date] and
    has at most ten characters, whatever else it names; to [Receipt No]
    exactly when its normalised form is one of six names; to [Pen] exactly
    when it is [pen], [penalty] or [denda], so a header that merely
    contains [pen] is not. *)
Theorem date_receipt_and_pen_rules (h : str) :
  (map_header h = Some (py "Date")
   ↔ str_in (py "date") (normalised h) = true ∧ (length (normalised h) ≤ 10)%nat)
  ∧ (map_header h = Some (py "Receipt No")
     ↔ normalised h ∈ [py "receipt no"; py "receipt"; py "receipt number";
                       py "ref no"; py "reference"; py "transaction id"])
  ∧ (map_header h = Some (py "Pen")
     ↔ normalised h ∈ [py "pen"; py "penalty"; py "denda"]).
Proof.
  split_and!; split.
  - intros [(_ & ? & ?)|[[Ht _]|[[Ht _]|Ht]]]%map_header_cases; [done|exfalso..].
    + vm_compute in Ht. discriminate Ht.
    + vm_compute in Ht. discriminate Ht.
    + revert Ht. vm_decide.
  - intros [? ?]. by apply map_header_date.
  - intros [(Ht & _)|[[_ ?]|[[Ht _]|Ht]]]%map_header_cases; [exfalso|done|exfalso..].
    + vm_compute in Ht. discriminate Ht.
    + vm_compute in Ht. discriminate Ht.
    + revert Ht. vm_decide.
  - intros Hin.
    repeat (apply elem_of_cons in Hin as [Hin|Hin];
            [by rewrite (map_header_exact _ _ Hin)|]).
    by apply elem_of_nil in Hin.
  - intros [(Ht & _)|[[Ht _]|[[_ ?]|Ht]]]%map_header_cases; [exfalso..|done|exfalso].
    + vm_compute in Ht. discriminate Ht.
    + vm_compute in Ht. discriminate Ht.
    + revert Ht. vm_decide.
  - intros Hin.
    repeat (apply elem_of_cons in Hin as [Hin|Hin];
            [by rewrite (map_header_exact _ _ Hin)|]).
    by apply elem_of_nil in Hin.
Qed.

End HeaderSearch.

(** * Further properties: the text cleaner *)

Section BlankFree.

(** A predicate on characters that holds of no blank. *)
Variable Q : Z → Prop.
Context `{!∀ c, Decision (Q c)}.
Hypothesis Q_not_blank : ∀ c, isspace c = true → ¬ Q c.

Lemma filter_lstrip (s : str) : filter Q (lstrip s) = filter Q s.
Proof.
  induction s as [|c s IH]; simpl; [done|].
  destruct (isspace c) eqn:Hc; [|done].
  rewrite filter_cons_False by (by apply Q_not_blank). done.
Qed.

Lemma filter_strip (s : str) : filter Q (strip s) = filter Q s.
Proof.
  unfold strip, rstrip.
  by rewrite filter_reverse, filter_lstrip, <- filter_reverse,
    reverse_involutive, filter_lstrip.
Qed.

Lemma filter_join_cons (p : str) (parts : list str) :
  filter Q (join (py " ") (p :: parts))
  = filter Q p ++ filter Q (join (py " ") parts).
Proof.
  destruct parts as [|p' parts]; simpl; [by rewrite app_nil_r|].
  rewrite filter_app. f_equal.
  change (py " " ++ ?t) with (32 :: t).
  by rewrite filter_cons_False by (by apply Q_not_blank).
Qed.

Lemma filter_join_split_from (cur s : str) :
  filter Q (join (py " ") (split_from cur s)) = filter Q (cur ++ s).
Proof.
  revert cur. induction s as [|c s IH]; intros cur.
  - rewrite app_nil_r. by destruct cur.
  - cbn [split_from]. destruct (isspace c) eqn:Hc.
    + rewrite filter_app, (filter_cons_False _ c) by (by apply Q_not_blank).
      destruct cur as [|d cur]; [by rewrite IH|].
      by rewrite filter_join_cons, IH.
    + by rewrite IH, <- (assoc_L (++)).
Qed.

End BlankFree.

Section CleanerMore.
Context {RT : PyRuntime}.

(** X14. Cleaning keeps the whitelisted characters of the text that are
    not blanks, all of them and in their order; apart from blanks, nothing
    is added, moved or lost. *)
Theorem clean_text_keeps_whitelisted_characters (text : str) :
  filter (fun c => negb (isspace c)) (_clean_text text)
  = filter (fun c => kept_char c && negb (isspace c)) text.
Proof.
  assert (∀ c, isspace c = true → ¬ negb (isspace c)) as Hnb
    by (intros c -> Hf; exact Hf).
  assert (∀ c, isspace c = true → ¬ (kept_char c && negb (isspace c))) as Hkb.
  { intros c ->. rewrite andb_false_r. intros Hf. exact Hf. }
  unfold _clean_text. destruct text as [|c text]; [done|]. cbn [truthy negb].
  rewrite (filter_strip _ Hnb), list_filter_filter.
  rewrite (list_filter_iff _ (fun c => kept_char c && negb (isspace c)))
    by (intros x; rewrite andb_True; tauto).
  unfold split. by rewrite (filter_join_split_from _ Hkb).
Qed.

Lemma split_from_words (cur s : str) :
  Forall (fun c => isspace c = false) cur →
  Forall (fun p : str => p ≠ [] ∧ Forall (fun c => isspace c = false) p)
         (split_from cur s).
Proof.
  revert cur. induction s as [|c s IH]; intros cur Hcur; cbn [split_from].
  - destruct cur; [constructor|]. by apply Forall_singleton.
  - destruct (isspace c) eqn:Hc.
    + destruct cur as [|d cur]; [by apply IH|].
      constructor; [done|]. by apply IH.
    + apply IH, Forall_app. split; [done|]. by apply Forall_singleton.
Qed.

Lemma join_split_from_kept (cur s : str) :
  Forall (fun c => kept_char c = true) (cur ++ s) →
  Forall (fun c => kept_char c = true) (join (py " ") (split_from cur s)).
Proof.
  revert cur. induction s as [|c s IH]; intros cur; cbn [split_from].
  - rewrite app_nil_r. by destruct cur.
  - intros [Hcur [Hc Hs]%Forall_cons]%Forall_app.
    destruct (isspace c) eqn:Hsp.
    + destruct cur as [|d cur]; [by apply IH|].
      specialize (IH [] Hs).
      destruct (split_from [] s) as [|p parts]; [done|].
      change (join (py " ") ((d :: cur) :: p :: parts))
        with ((d :: cur) ++ 32 :: join (py " ") (p :: parts)).
      apply Forall_app. split; [done|]. by constructor.
    + apply IH. rewrite <- (assoc_L (++)). apply Forall_app. split; [done|].
      by constructor.
Qed.

Lemma no_double_blank_blank_free (p : str) :
  Forall (fun c => isspace c = false) p → no_double_blank p = true.
Proof.
  induction 1 as [|c p Hc Hp IH]; [done|].
  destruct p as [|d p]; [done|].
  change (no_double_blank (c :: d :: p))
    with (negb (isspace c && isspace d) && no_double_blank (d :: p)).
  by rewrite Hc, IH.
Qed.

Lemma no_double_blank_sep (p t : str) :
  Forall (fun c => isspace c = false) p →
  (∀ c, head t = Some c → isspace c = false) →
  no_double_blank t = true →
  no_double_blank (p ++ 32 :: t) = true.
Proof.
  intros Hp Ht Hndb. induction Hp as [|c p Hc Hp IH].
  - destruct t as [|d t]; [done|].
    change (no_double_blank ([] ++ 32 :: d :: t))
      with (negb (isspace 32 && isspace d) && no_double_blank (d :: t)).
    by rewrite (Ht d eq_refl), Hndb.
  - change ((c :: p) ++ 32 :: t) with (c :: (p ++ 32 :: t)).
    destruct (p ++ 32 :: t) as [|d rest] eqn:Heq; [done|].
    change (no_double_blank (c :: d :: rest))
      with (negb (isspace c && isspace d) && no_double_blank (d :: rest)).
    by rewrite Hc, IH.
Qed.

Lemma join_words (parts : list str) :
  Forall (fun p : str => p ≠ [] ∧ Forall (fun c => isspace c = false) p) parts →
  no_double_blank (join (py " ") parts) = true
  ∧ (∀ c, head (join (py " ") parts) = Some c → isspace c = false)
  ∧ (∀ c, last (join (py " ") parts) = Some c → isspace c = false).
Proof.
  induction 1 as [|p parts [Hne Hp] Hparts IH]; [done|].
  assert (∀ c, head p = Some c → isspace c = false) as Hhead.
  { intros c Hc. eapply Forall_forall in Hp; [exact Hp|].
    destruct p; [done|]. injection Hc as ->. apply list_elem_of_here. }
  destruct parts as [|p' parts].
  - simpl. split_and!; [by apply no_double_blank_blank_free|done|].
    intros c Hc. apply last_Some in Hc as [p0 ->].
    apply Forall_app in Hp as [_ Hc]. exact (proj1 (Forall_singleton _ _) Hc).
  - destruct IH as (Hndb & Hh & Hl).
    change (join (py " ") (p :: p' :: parts))
      with (p ++ 32 :: join (py " ") (p' :: parts)).
    split_and!.
    + by apply no_double_blank_sep.
    + intros c. destruct p; [done|]. apply Hhead.
    + intros c. rewrite last_app, last_cons.
      apply Forall_cons in Hparts as [[Hne' _] _].
      destruct (last (join (py " ") (p' :: parts))) as [y|] eqn:Hlast.
      * intros [= <-]. by apply Hl.
      * apply last_None in Hlast. destruct p'; [done|].
        by destruct parts.
Qed.

Lemma strip_id (t : str) :
  (∀ c, head t = Some c → isspace c = false) →
  (∀ c, last t = Some c → isspace c = false) →
  strip t = t.
Proof.
  intros Hh Hl.
  assert (∀ u : str, (∀ c, head u = Some c → isspace c = false) → lstrip u = u)
    as Hlstrip.
  { intros [|c u] Hu; [done|]. simpl. by rewrite (Hu c). }
  unfold strip, rstrip. rewrite (Hlstrip t Hh).
  rewrite Hlstrip; [apply reverse_involutive|].
  intros c. rewrite head_reverse. apply Hl.
Qed.

Lemma filter_kept_id (t : str) :
  Forall (fun c => kept_char c = true) t →
  filter (fun c => kept_char c) t = t.
Proof.
  induction 1 as [|c t Hc Ht IH]; [done|].
  rewrite filter_cons_True by (by rewrite Hc). by rewrite IH.
Qed.

(** X15. When every character of the text is whitelisted, cleaning is the
    collapse of its blanks: the words of the text joined by single spaces,
    with no blank followed by a blank. *)
Theorem clean_text_collapses_whitelisted_text (text : str) :
  (∀ c, c ∈ text → kept_char c = true) →
  _clean_text text = join (py " ") (split text)
  ∧ no_double_blank (_clean_text text) = true.
Proof.
  intros Hkept.
  assert (_clean_text text = join (py " ") (split text)) as Hclean.
  { unfold _clean_text. destruct text as [|c text]; [done|]. cbn [truthy negb].
    pose proof (join_words _ (split_from_words [] (c :: text) (Forall_nil_2 _)))
      as (_ & Hh & Hl).
    rewrite filter_kept_id.
    - by apply strip_id.
    - apply join_split_from_kept. by apply Forall_forall. }
  split; [done|]. rewrite Hclean.
  apply join_words, split_from_words. constructor.
Qed.

End CleanerMore.

(** * Further properties: de-duplication and the fallback *)

Section DedupMore.

Lemma keep_first_NoDup_id (data : list record) :
  NoDup data → keep_first data = data.
Proof.
  induction data as [|item data IH] using rev_ind; [done|].
  intros [Hdata [Hnotin _]]%NoDup_app. rewrite keep_first_snoc, IH by done.
  rewrite bool_decide_true; [done|].
  intros (r & Hsig%signature_inj & Hr)%list_elem_of_fmap. subst r.
  eapply Hnotin; [exact Hr | apply list_elem_of_here].
Qed.

(** X16. De-duplicating twice is de-duplicating once; a list without
    repetition is returned as it is; the result is never longer than the
    input. *)
Theorem remove_duplicates_idempotent :
  (∀ data, _remove_duplicates (_remove_duplicates data) = _remove_duplicates data)
  ∧ (∀ data, NoDup data → _remove_duplicates data = data)
  ∧ (∀ data, length (_remove_duplicates data) ≤ length data)%nat.
Proof.
  split_and!.
  - intros data. rewrite !remove_duplicates_keep_first.
    apply keep_first_NoDup_id, keep_first_NoDup.
  - intros data Hdata. rewrite remove_duplicates_keep_first.
    by apply keep_first_NoDup_id.
  - intros data. rewrite remove_duplicates_keep_first.
    apply sublist_length, keep_first_sublist.
Qed.

End DedupMore.

Section FallbackMore.
Context {RT : PyRuntime}.

(** The target the fallback picks for a key is never [CBU withdraw]: a
    key that contains it contains [cbu], which comes first. *)
Lemma fallback_target_not_withdraw (key target : str) :
  List.find (fun target => str_in (lower target) (lower key)) target_columns
  = Some target →
  target ≠ py "CBU withdraw".
Proof.
  unfold target_columns. cbn [List.find].
  repeat next_rule; intros [= <-]; try (by vm_compute).
  exfalso.
  match goal with
  | Hw : str_in (lower (py "CBU withdraw")) _ = true,
    Hc : str_in (lower (py "CBU")) _ = false |- _ =>
      apply str_in_spec in Hw as (pre & post & Hw);
      apply not_true_iff_false in Hc; apply Hc, str_in_spec;
      exists pre, (py " withdraw" ++ post); rewrite Hw
  end.
  reflexivity.
Qed.

Lemma structured_step_withdraw (data : list record) (current_record : record)
    (element : node) :
  Forall (fun r : record => r !! py "CBU withdraw" = None) data →
  current_record !! py "CBU withdraw" = None →
  let st := structured_step (data, current_record) element in
  Forall (fun r : record => r !! py "CBU withdraw" = None) (fst st)
  ∧ snd st !! py "CBU withdraw" = None.
Proof.
  intros Hdata Hcur. unfold structured_step.
  match goal with
  | |- context [bool_decide (2 ≤ size ?c)%nat] =>
      assert (c !! py "CBU withdraw" = None) as Hnew
  end.
  { destruct (str_in (py ":") _); [|done].
    destruct (split1 58 _) as [|p0 [|p1 [|? ?]]]; [done..| |done].
    destruct (List.find _ _) as [target|] eqn:Hfind; [|done].
    apply fallback_target_not_withdraw in Hfind.
    by rewrite lookup_insert_ne. }
  simpl. case_bool_decide; simpl.
  - split; [|apply lookup_empty]. apply Forall_app. split; [done|].
    by apply Forall_singleton.
  - done.
Qed.

(** X17. The fallback never fills the column [CBU withdraw]: a key that
    names it also names [CBU], the target tried first. *)
Theorem fallback_never_reads_cbu_withdraw (soup : node) :
  Forall (fun r : record => r !! py "CBU withdraw" = None)
         (_extract_from_structured_content soup).
Proof.
  unfold _extract_from_structured_content.
  assert (∀ elements,
    let st := foldl structured_step ([], ∅) elements in
    Forall (fun r : record => r !! py "CBU withdraw" = None) (fst st)
    ∧ snd st !! py "CBU withdraw" = None) as Hloop.
  { induction elements as [|element elements IH] using rev_ind.
    - simpl. split; [constructor | apply lookup_empty].
    - rewrite foldl_app. cbn [foldl].
      destruct (foldl structured_step ([], ∅) elements) as [data cur].
      destruct IH as [Hdata Hcur]. by apply structured_step_withdraw. }
  specialize (Hloop (find_all [py "div"; py "span"; py "p"] soup)).
  destruct (foldl structured_step _ _) as [data cur].
  destruct Hloop as [Hdata Hcur]. simpl in *.
  case_bool_decide; [|done].
  apply Forall_app. split; [done|]. by apply Forall_singleton.
Qed.

(** X18. A record of the fallback has one or two fields, never more, and
    a record of one field can only be the last one: a payment described by
    more than two [key: value] blocks is cut into several records. *)
Theorem fallback_records_have_one_or_two_fields (soup : node) (i : nat)
    (r : record) :
  _extract_from_structured_content soup !! i = Some r →
  size r = 2%nat
  ∨ (size r = 1%nat ∧ S i = length (_extract_from_structured_content soup)).
Proof.
  unfold _extract_from_structured_content.
  pose proof (fallback_loop (find_all [py "div"; py "span"; py "p"] soup)) as Hinv.
  destruct (foldl structured_step _ _) as [data current_record].
  destruct Hinv as (Hcur & Hdata & _). cbn [fst snd] in *.
  assert (∀ j r', data !! j = Some r' → size r' = 2%nat) as Hdata'.
  { intros j r' Hj. by eapply Forall_lookup_1 in Hdata. }
  case_bool_decide as Hrest; [|by left; eapply Hdata'].
  intros Hi. destruct (decide (i < length data)%nat) as [Hlt|Hge].
  - rewrite lookup_app_l in Hi by done. left. by eapply Hdata'.
  - rewrite lookup_app_r in Hi by lia.
    apply list_lookup_singleton_Some in Hi as [Hi <-]. right.
    apply map_size_non_empty_iff in Hrest.
    rewrite length_app. simpl. lia.
Qed.

(** A block without a colon leaves the state of the loop as it is when no
    record is under way. *)
Lemma structured_step_no_colon (element : node) :
  str_in (py ":") (_clean_text (get_text element)) = false →
  structured_step ([], ∅) element = ([], ∅).
Proof. unfold structured_step. by intros ->. Qed.

(** X19. Blocks without a colon yield nothing: when no [div], [span] or
    [p] of the page has a colon in its cleaned text, the fallback returns
    no record, and the scrape returns the empty list when the tables yield
    nothing either. *)
Theorem fallback_needs_a_colon (soup : node) :
  (∀ element, element ∈ find_all [py "div"; py "span"; py "p"] soup →
              str_in (py ":") (_clean_text (get_text element)) = false) →
  _extract_from_structured_content soup = []
  ∧ (_extract_from_tables soup = [] → scrape_payment_data soup = []).
Proof.
  intros Hno.
  assert (_extract_from_structured_content soup = []) as Hnil.
  { unfold _extract_from_structured_content.
    assert (foldl structured_step ([], ∅)
              (find_all [py "div"; py "span"; py "p"] soup) = ([], ∅)) as ->.
    { induction (find_all [py "div"; py "span"; py "p"] soup)
        as [|element elements IH] using rev_ind; [done|].
      rewrite foldl_app, IH.
      - apply structured_step_no_colon, Hno, elem_of_app. right.
        apply list_elem_of_here.
      - intros e He. apply Hno, elem_of_app. by left. }
    by rewrite bool_decide_false by (by intros ?). }
  split; [done|]. intros Htables.
  by rewrite scrape_from_fallback, Hnil.
Qed.

End FallbackMore.

(** * Further properties: rows and tables *)

Section RowsMore.
Context {RT : PyRuntime}.

Lemma populated_cells_snoc (column_mapping : gmap nat str) (cells : list node)
    (cell : node) (k : str) :
  populated_cells column_mapping (cells ++ [cell]) k
  = populated_cells column_mapping cells k
    ++ (if bool_decide (column_mapping !! length cells = Some k)
           && truthy k && truthy (clean_cell cell)
        then [clean_cell cell] else []).
Proof.
  unfold populated_cells. rewrite enumerate_snoc, omap_app. f_equal.
  simpl. by destruct (_ && _ && _).
Qed.

(** X20. When several columns of a table are mapped to the same target,
    the field holds the text of the last of their cells that is not empty:
    the field of a row is the last of the non-empty cleaned texts of its
    cells in the columns mapped to it, and is absent when there is none. *)
Theorem row_field_is_last_populated_cell (column_mapping : gmap nat str)
    (cells : list node) (k : str) :
  row_data_of column_mapping cells !! k
  = last (populated_cells column_mapping cells k).
Proof.
  induction cells as [|cell cells IH] using rev_ind; [done|].
  rewrite populated_cells_snoc. unfold row_data_of in *.
  rewrite enumerate_snoc, foldl_app. simpl.
  destruct (column_mapping !! length cells) as [target|] eqn:Hm.
  2:{ rewrite (bool_decide_false (None = Some k)) by done. simpl.
      by rewrite app_nil_r. }
  destruct (decide (target = k)) as [->|Hne].
  - rewrite (bool_decide_true (Some k = Some k)) by done.
    destruct (truthy k), (clean_cell cell) as [|c text]; simpl;
      rewrite ?app_nil_r; try done.
    by rewrite lookup_insert_eq, last_snoc.
  - rewrite (bool_decide_false (Some target = Some k)) by congruence. simpl.
    rewrite app_nil_r.
    destruct (_ && _ && _); [by rewrite lookup_insert_ne|done].
Qed.

Lemma find_header_none (rows : list node) :
  fst (find_header rows) = None → snd (find_header rows) = [].
Proof.
  induction rows as [|row rows IH]; [done|].
  rewrite find_header_step. by destruct (is_header_row row).
Qed.

Lemma omap_length_le {A B : Type} (f : A → option B) (l : list A) :
  (length (omap f l) ≤ length l)%nat.
Proof.
  induction l as [|x l IH]; csimpl; [done|]. destruct (f x); csimpl; lia.
Qed.

(** X21. A table never yields more records than it has rows after the
    first one; a table of a single row, or of none, yields no record. *)
Theorem table_records_bounded_by_rows (table : node) :
  (length (_process_table table) ≤ length (find_all [py "tr"] table) - 1)%nat.
Proof.
  unfold _process_table.
  destruct (negb _); [simpl; lia|].
  pose proof (find_header_none (find_all [py "tr"] table)) as Hnone.
  destruct (find_header _) as [found headers]. simpl in Hnone.
  case_bool_decide as Hheaders; simpl; [|lia].
  destruct (bool_decide _); [simpl; lia|].
  destruct found as [row|]; [|by rewrite Hnone in Hheaders].
  etrans; [apply omap_length_le|]. cbn [data_rows_of]. by rewrite length_drop.
Qed.

End RowsMore.

Section Nesting.

(** Induction on a tree, with the property known of every child. *)
Lemma node_children_ind (P : node → Prop) :
  (∀ s, P (Text s)) →
  (∀ name attrs children, Forall P children → P (Tag name attrs children)) →
  ∀ n, P n.
Proof.
  intros Htext Htag. fix IH 1. intros [s|name attrs children]; [apply Htext|].
  apply Htag. induction children as [|c children IHc]; constructor.
  - apply IH.
  - exact IHc.
Qed.

Lemma elem_of_descendants_tag (d : node) (name : str) (attrs : list (str * str))
    (children : list node) :
  d ∈ descendants (Tag name attrs children)
  ↔ ∃ c, c ∈ children ∧ (d = c ∨ d ∈ descendants c).
Proof.
  cbn [descendants]. rewrite list_elem_of_In, in_flat_map. split.
  - intros (c & Hc%list_elem_of_In & Hd%list_elem_of_In).
    exists c. split; [done|]. by apply elem_of_cons in Hd.
  - intros (c & Hc & Hd). exists c. rewrite <- !list_elem_of_In.
    split; [done|]. by apply elem_of_cons.
Qed.

Lemma descendants_trans (n d e : node) :
  d ∈ descendants n → e ∈ descendants d → e ∈ descendants n.
Proof.
  revert d e. induction n as [s|name attrs children IH] using node_children_ind;
    intros d e Hd He.
  - by apply elem_of_nil in Hd.
  - apply elem_of_descendants_tag in Hd as (c & Hc & [->|Hd]);
      apply elem_of_descendants_tag; exists c; (split; [done|]); right; [done|].
    eapply Forall_forall in IH; [|exact Hc]. by eapply IH.
Qed.

(** X22. Tables inside tables are read twice: a table nested in a table
    of the page is itself one of the tables of the page, and each of its
    rows is also a row of the table around it. *)
Theorem nested_table_rows_read_twice (soup outer inner row : node) :
  outer ∈ find_all [py "table"] soup →
  inner ∈ find_all [py "table"] outer →
  row ∈ find_all [py "tr"] inner →
  inner ∈ find_all [py "table"] soup ∧ row ∈ find_all [py "tr"] outer.
Proof.
  unfold find_all. rewrite !list_elem_of_filter.
  intros [_ Houter] [Htable Hinner] [Htr Hrow]. split; split; [done| |done|].
  - by eapply descendants_trans.
  - by eapply descendants_trans.
Qed.

End Nesting.

(** * Further properties: preview and download *)

Section Sheet.

Lemma fill_columns_lookup (columns : list str) (row : record) (k : str) :
  foldl (fun row col =>
           if bool_decide (row !! col = None) then <[col := []]> row else row)
        row columns !! k
  = if bool_decide (k ∈ columns) then Some (default [] (row !! k)) else row !! k.
Proof.
  revert row. induction columns as [|col columns IH]; intros row; [done|].
  cbn [foldl]. rewrite IH. clear IH.
  destruct (decide (k = col)) as [->|Hne].
  - rewrite (bool_decide_true (col ∈ col :: columns)) by apply list_elem_of_here.
    assert ((if bool_decide (row !! col = None) then <[col := []]> row else row)
              !! col = Some (default [] (row !! col))) as ->.
    { destruct (row !! col) as [v|] eqn:Hcol.
      - by rewrite bool_decide_false, Hcol by done.
      - by rewrite bool_decide_true, lookup_insert_eq by done. }
    by destruct (bool_decide (col ∈ columns)).
  - assert ((if bool_decide (row !! col = None) then <[col := []]> row else row)
              !! k = row !! k) as ->.
    { destruct (bool_decide (row !! col = None)); [|done].
      by rewrite lookup_insert_ne. }
    rewrite (bool_decide_ext (k ∈ col :: columns) (k ∈ columns)); [done|].
    rewrite elem_of_cons. tauto.
Qed.

Lemma filter_Forall_id {A : Type} (P : A → Prop) `{!∀ x, Decision (P x)}
    (l : list A) :
  Forall P l → filter P l = l.
Proof.
  induction 1 as [|x l Hx Hl IH]; [done|].
  by rewrite filter_cons_True, IH.
Qed.

Lemma fill_missing_lookup (row : record) (k : str) :
  fill_missing row !! k
  = if bool_decide (k ∈ column_order) then Some (default [] (row !! k))
    else row !! k.
Proof. apply fill_columns_lookup. Qed.

Lemma elem_of_data_columns (data : list record) (col : str) :
  col ∈ data_columns data ↔ ∃ row, row ∈ data ∧ is_Some (row !! col).
Proof.
  unfold data_columns. rewrite elem_of_elements.
  induction data as [|row data IH]; simpl.
  - split; [by intros ?%not_elem_of_empty | by intros (? & ?%elem_of_nil & _)].
  - rewrite elem_of_union, elem_of_dom, IH. split.
    + intros [Hrow | (r & Hr & Hcol)].
      * exists row. split; [apply list_elem_of_here | done].
      * exists r. split; [by apply list_elem_of_further | done].
    + intros (r & [->|Hr]%elem_of_cons & Hcol); [by left|]. right. eauto.
Qed.

Lemma sheet_frame_nonempty (data : list record) :
  data ≠ [] →
  sheet_frame data = select_columns (fill_missing <$> data) column_order.
Proof.
  intros Hdata. unfold sheet_frame.
  assert (filter (fun col => col ∈ data_columns (fill_missing <$> data)) column_order
          = column_order) as ->.
  { apply filter_Forall_id, Forall_forall. intros col Hcol.
    apply elem_of_data_columns.
    destruct data as [|row data]; [done|].
    exists (fill_missing row). split; [apply list_elem_of_here|].
    rewrite fill_missing_lookup, bool_decide_true by done. eauto. }
  by rewrite bool_decide_true by (by vm_compute).
Qed.

Lemma sheet_frame_spec (data : list record) :
  data ≠ [] →
  frame_columns (sheet_frame data) = column_order
  ∧ frame_rows (sheet_frame data)
    = (fun row : record =>
         (fun col => Some (default [] (row !! col))) <$> column_order) <$> data.
Proof.
  intros Hdata. rewrite sheet_frame_nonempty by done. split; [done|].
  cbn [select_columns frame_rows]. rewrite <- list_fmap_compose.
  apply list_fmap_ext. intros _ row _. cbn [compose].
  apply list_fmap_ext. intros j col Hcol.
  rewrite fill_missing_lookup, bool_decide_true; [done|].
  by eapply list_elem_of_lookup_2.
Qed.

Lemma sheet_cell (data : list record) (i j : nat) (row : record) (k : str) :
  data !! i = Some row → column_order !! j = Some k →
  ∃ cells, frame_rows (sheet_frame data) !! i = Some cells
           ∧ cells !! j = Some (Some (default [] (row !! k))).
Proof.
  intros Hrow Hk.
  destruct (sheet_frame_spec data) as [_ ->]; [by intros ->|].
  eexists. rewrite list_lookup_fmap, Hrow. split; [done|].
  by rewrite list_lookup_fmap, Hk.
Qed.

(** X23. The sheet of a non-empty list of records has the thirteen columns
    of the fixed order, whatever columns the records hold, and one row per
    record, in order; a cell holds the value of the record for the column,
    and the empty string where the record has none. Without records the
    sheet has no column and no row. *)
Theorem sheet_has_the_fixed_columns :
  sheet_frame [] = {| frame_columns := []; frame_rows := [] |}
  ∧ ∀ data, data ≠ [] →
      frame_columns (sheet_frame data) = column_order
      ∧ frame_rows (sheet_frame data)
        = (fun row : record =>
             (fun col => Some (default [] (row !! col))) <$> column_order) <$> data.
Proof. split; [vm_refl | apply sheet_frame_spec]. Qed.

Lemma known_columns_in_order (k : str) : k ∈ known_columns → k ∈ column_order.
Proof.
  assert (Forall (fun k => k ∈ column_order) known_columns) as Hall by vm_decide.
  intros Hk. exact (proj1 (Forall_forall _ _) Hall k Hk).
Qed.

End Sheet.

Section SheetFacts.
Context {RT : PyRuntime}.
Variable netloc : str → str.

(** X24. No field of a scraped record is lost on the way to the sheet:
    every field of the record at position [i] of the result of a scrape
    stands in row [i] of the sheet, under the column of its name. *)
Theorem sheet_lists_every_scraped_field (soup : node) (i : nat) (r : record)
    (k v : str) :
  scrape_payment_data soup !! i = Some r → r !! k = Some v →
  ∃ j cells,
    frame_columns (sheet_frame (scrape_payment_data soup)) !! j = Some k
    ∧ frame_rows (sheet_frame (scrape_payment_data soup)) !! i = Some cells
    ∧ cells !! j = Some (Some v).
Proof.
  intros Hr Hkv.
  assert (k ∈ column_order) as [j Hj]%list_elem_of_lookup.
  { apply known_columns_in_order.
    eapply scrape_well_keyed; [by eapply list_elem_of_lookup_2 | by eexists]. }
  destruct (sheet_cell _ _ _ _ _ Hr Hj) as (cells & Hcells & Hcell).
  exists j, cells. split_and!; [|done|by rewrite Hcell, Hkv].
  destruct (sheet_frame_spec (scrape_payment_data soup)) as [-> _]; [|done].
  intros Hnil. by rewrite Hnil in Hr.
Qed.

Lemma data_key_inj (sid sid' : str) :
  py "scraped_data_" ++ sid = py "scraped_data_" ++ sid' → sid = sid'.
Proof. apply app_inv_head. Qed.

(** X25. A download uses the session entry up. When the entry exists, the
    route sends the sheet of its records and drops it: from then on
    [preview], [update_data] and [download_excel] find the session
    expired for that id, and the entries of other ids stay as they were. *)
Theorem download_consumes_session (session : gmap str scraped_info)
    (session_id : str) (info : scraped_info) :
  session !! (py "scraped_data_" ++ session_id) = Some info →
  let session' := fst (download_excel netloc session session_id) in
  (∃ name, snd (download_excel netloc session session_id)
           = Attachment name (sheet_frame (data info)))
  ∧ preview session' session_id = PreviewExpired
  ∧ (∀ body, update_data session' session_id body = (session', SessionExpired))
  ∧ download_excel netloc session' session_id = (session', DownloadExpired)
  ∧ ∀ other, other ≠ session_id →
      session' !! (py "scraped_data_" ++ other)
      = session !! (py "scraped_data_" ++ other).
Proof.
  intros Hinfo.
  assert (∃ name, download_excel netloc session session_id
                  = (delete (py "scraped_data_" ++ session_id) session,
                     Attachment name (sheet_frame (data info))))
    as [name ->].
  { unfold download_excel. rewrite Hinfo. by eexists. }
  cbn [fst snd]. split_and!.
  - by eexists.
  - unfold preview. by rewrite lookup_delete_eq.
  - intros body. unfold update_data. by rewrite lookup_delete_eq.
  - unfold download_excel. by rewrite lookup_delete_eq.
  - intros other Hother. rewrite lookup_delete_ne; [done|].
    intros Heq%data_key_inj. by apply Hother.
Qed.

Lemma apply_updates_single (data : list record) (i : nat) (row : record)
    (key : str) (value : json) :
  data !! i = Some row → key ∈ editable_columns →
  apply_updates data (Z.of_nat i) [(key, value)]
  = inr (<[i := <[key := py_str value]> row]> data).
Proof.
  intros Hrow Hkey. simpl. rewrite bool_decide_true by done.
  unfold setitem, py_index.
  pose proof (lookup_lt_Some _ _ _ Hrow) as Hlt.
  rewrite (proj2 (Z.leb_le _ _)) by lia. rewrite (proj2 (Z.ltb_lt _ _)) by lia.
  simpl. rewrite Nat2Z.id, Hrow. done.
Qed.

(** X26. An accepted edit shows in the sheet: after a request that writes
    an editable column of the record at position [i], the download of the
    session has the written value in row [i], under that column. *)
Theorem edited_value_reaches_sheet (session : gmap str scraped_info)
    (session_id : str) (info : scraped_info) (i : nat) (row : record)
    (row_index key : str) (value : json) :
  session !! (py "scraped_data_" ++ session_id) = Some info →
  data info !! i = Some row → key ∈ editable_columns →
  py_int row_index = inr (Z.of_nat i) →
  let session' :=
    fst (update_data session session_id
           (JDict [(row_index, JDict [(key, value)])])) in
  ∃ name sheet j cells,
    snd (download_excel netloc session' session_id) = Attachment name sheet
    ∧ frame_columns sheet !! j = Some key
    ∧ frame_rows sheet !! i = Some cells
    ∧ cells !! j = Some (Some (py_str value)).
Proof.
  intros Hinfo Hrow Hkey Hint.
  pose proof (lookup_lt_Some _ _ _ Hrow) as Hlt.
  unfold update_data. rewrite Hinfo. cbn [items bind ret apply_edits].
  rewrite Hint. cbn [bind]. rewrite (proj2 (Z.ltb_lt _ _)) by lia.
  cbn [items bind ret]. rewrite (apply_updates_single _ _ _ _ _ Hrow Hkey).
  cbn [bind apply_edits ret fst].
  unfold download_excel. rewrite lookup_insert_eq. cbn [snd data].
  assert (key ∈ column_order) as [j Hj]%list_elem_of_lookup.
  { apply known_columns_in_order, elem_of_app. by right. }
  set (data' := <[i := <[key := py_str value]> row]> (data info)).
  assert (data' !! i = Some (<[key := py_str value]> row)) as Hrow'
    by (by apply list_lookup_insert_eq).
  destruct (sheet_cell _ _ _ _ _ Hrow' Hj) as (cells & Hcells & Hcell).
  eexists _, _, j, cells. split_and!; [done| |done|].
  - destruct (sheet_frame_spec data') as [-> _]; [|done].
    intros Hnil. by rewrite Hnil in Hrow'.
  - by rewrite Hcell, lookup_insert_eq.
Qed.

(** X27. Edits neither add nor remove records, nor touch what else the
    session keeps: before and after any request to the edit route,
    [preview] shows the same number of records, the same address and the
    same columns for every id, with records that differ in editable columns
    only; an expired session stays expired. *)
Theorem preview_after_update (session : gmap str scraped_info)
    (session_id shown : str) (body : json) :
  match preview session shown,
        preview (fst (update_data session session_id body)) shown with
  | PreviewPage d u c _ n, PreviewPage d' u' c' _ n' =>
      n' = n ∧ u' = u ∧ c' = c ∧ Forall2 edited d d'
  | PreviewExpired, PreviewExpired => True
  | _, _ => False
  end.
Proof.
  unfold preview, update_data.
  destruct (session !! (py "scraped_data_" ++ session_id)) as [info|] eqn:Hinfo.
  2:{ cbn [fst]. destruct (session !! (py "scraped_data_" ++ shown)) as [shown_info|]; [|done].
      split_and!; [done..|]. apply edited_refl. }
  destruct (bind _ _) as [e|data'] eqn:Hrun; cbn [fst].
  { destruct (session !! (py "scraped_data_" ++ shown)) as [shown_info|]; [|done].
    split_and!; [done..|]. apply edited_refl. }
  assert (Forall2 edited (data info) data') as Hed.
  { destruct (items body) as [e|edits]; [done|]. by eapply apply_edits_edited. }
  destruct (decide (session_id = shown)) as [->|Hne].
  - rewrite lookup_insert_eq, Hinfo. cbn [data url columns].
    split_and!; [|done..]. symmetry. by eapply Forall2_length.
  - rewrite lookup_insert_ne by (by intros ?%data_key_inj).
    destruct (session !! (py "scraped_data_" ++ shown)) as [shown_info|]; [|done].
    split_and!; [done..|]. apply edited_refl.
Qed.

End SheetFacts.

(** * Further properties: the whole scrape *)

Section Pipeline.
Context {RT : PyRuntime}.

Lemma remove_duplicates_nil (data : list record) :
  _remove_duplicates data = [] ↔ data = [].
Proof.
  split; [|by intros ->].
  destruct data as [|item data]; [done|]. intros Hnil.
  assert (item ∈ _remove_duplicates (item :: data)) as Hin
    by apply remove_duplicates_elem, list_elem_of_here.
  rewrite Hnil in Hin. by apply elem_of_nil in Hin.
Qed.

(** X2. A scrape returns no record twice. Its records are those of the
    tables when a table yields any; the text blocks of the page
    are read only when no table yields a record, and then the records are
    those of the blocks. The result is empty exactly when both ways yield
    nothing. *)
Theorem scrape_prefers_tables_and_never_repeats (soup : node) :
  NoDup (scrape_payment_data soup)
  ∧ (∀ r, r ∈ scrape_payment_data soup
          ↔ if bool_decide (_extract_from_tables soup = [])
            then r ∈ _extract_from_structured_content soup
            else r ∈ _extract_from_tables soup)
  ∧ (scrape_payment_data soup = []
     ↔ _extract_from_tables soup = []
       ∧ _extract_from_structured_content soup = []).
Proof.
  case_bool_decide as Htables.
  - rewrite scrape_from_fallback by done. split_and!.
    + rewrite remove_duplicates_keep_first. apply keep_first_NoDup.
    + intros r. apply remove_duplicates_elem.
    + rewrite remove_duplicates_nil. naive_solver.
  - rewrite scrape_from_tables by done. split_and!.
    + rewrite remove_duplicates_keep_first. apply keep_first_NoDup.
    + intros r. apply remove_duplicates_elem.
    + rewrite remove_duplicates_nil. naive_solver.
Qed.

End Pipeline.

(** ** Witnesses of the further properties *)

(** X12, at the headers [ DATE ] and [date]. *)
Lemma header_rules_ignore_case_and_blanks_witness :
  map_header (RT:=ascii_only) (py " DATE ") = map_header (RT:=ascii_only) (py "date").
Proof.
  apply (header_rules_ignore_case_and_blanks (RT:=ascii_only)
           (py " DATE ") (py "date")).
  vm_refl.
Defined.

(** X15, at a text of whitelisted characters with a run of blanks. *)
Lemma clean_text_collapses_whitelisted_text_witness :
  _clean_text (RT:=ascii_only) (py " paid   100.50 ")
  = join (py " ") (split (py " paid   100.50 "))
  ∧ no_double_blank (_clean_text (RT:=ascii_only) (py " paid   100.50 ")) = true.
Proof.
  apply (clean_text_collapses_whitelisted_text (RT:=ascii_only)
           (py " paid   100.50 ")).
  intros c Hc.
  assert (Forall (fun c => kept_char (RT:=ascii_only) c = true)
                 (py " paid   100.50 ")) as Hall by vm_decide.
  exact (proj1 (Forall_forall _ _) Hall c Hc).
Defined.

(** X18, at the only record of [one_field_page]. *)
Lemma fallback_records_have_one_or_two_fields_witness :
  size one_field_record = 2%nat
  ∨ (size one_field_record = 1%nat
     ∧ 1%nat = length (_extract_from_structured_content (RT:=ascii_only)
                         one_field_page)).
Proof.
  apply (fallback_records_have_one_or_two_fields (RT:=ascii_only)
           one_field_page 0 one_field_record).
  vm_refl.
Defined.

(** X19, at [plain_page]. *)
Lemma fallback_needs_a_colon_witness :
  _extract_from_structured_content (RT:=ascii_only) plain_page = []
  ∧ (_extract_from_tables (RT:=ascii_only) plain_page = []
     → scrape_payment_data (RT:=ascii_only) plain_page = []).
Proof.
  apply (fallback_needs_a_colon (RT:=ascii_only) plain_page).
  intros element Helement.
  assert (Forall (fun element =>
                    str_in (py ":") (_clean_text (RT:=ascii_only)
                                       (get_text element)) = false)
                 (find_all [py "div"; py "span"; py "p"] plain_page))
    as Hall by vm_decide.
  exact (proj1 (Forall_forall _ _) Hall element Helement).
Defined.

(** X22, at [nested_page]. *)
Lemma nested_table_rows_read_twice_witness :
  inner_table ∈ find_all [py "table"] nested_page
  ∧ tr [td "2024-01-05"] ∈ find_all [py "tr"] outer_table.
Proof.
  apply (nested_table_rows_read_twice nested_page outer_table inner_table
           (tr [td "2024-01-05"]));
    apply (list_elem_of_lookup_2 _ 0); vm_refl.
Defined.

(** X24, at the only field of the only record of [one_field_page]. *)
Lemma sheet_lists_every_scraped_field_witness :
  ∃ j cells,
    frame_columns (sheet_frame (scrape_payment_data (RT:=ascii_only)
                                  one_field_page)) !! j = Some (py "Date")
    ∧ frame_rows (sheet_frame (scrape_payment_data (RT:=ascii_only)
                                 one_field_page)) !! 0%nat = Some cells
    ∧ cells !! j = Some (Some (py "2024-01-05")).
Proof.
  apply (sheet_lists_every_scraped_field (RT:=ascii_only) one_field_page 0
           one_field_record (py "Date") (py "2024-01-05")).
  - vm_refl.
  - vm_refl.
Defined.

(** X25, at the session of two records. *)
Lemma download_consumes_session_witness :
  let session := session_with two_records in
  let session' := fst (download_excel example_netloc session (py "s1")) in
  (∃ name, snd (download_excel example_netloc session (py "s1"))
           = Attachment name (sheet_frame two_records))
  ∧ preview session' (py "s1") = PreviewExpired
  ∧ (∀ body, update_data (RT:=ascii_only) session' (py "s1") body
             = (session', SessionExpired))
  ∧ download_excel example_netloc session' (py "s1")
    = (session', DownloadExpired)
  ∧ ∀ other, other ≠ py "s1" →
      session' !! (py "scraped_data_" ++ other)
      = session !! (py "scraped_data_" ++ other).
Proof.
  apply (download_consumes_session (RT:=ascii_only) example_netloc
           (session_with two_records) (py "s1")
           {| data := two_records; url := py "http://example.org/ledger";
              columns := [] |}).
  vm_refl.
Defined.

(** X26, at the first record of the session of two records. *)
Lemma edited_value_reaches_sheet_witness :
  let session' :=
    fst (update_data (RT:=ascii_only) (session_with two_records) (py "s1")
           (JDict [(py "0", JDict [(py "Principal_PassBook", JStr (py "5"))])])) in
  ∃ name sheet j cells,
    snd (download_excel example_netloc session' (py "s1")) = Attachment name sheet
    ∧ frame_columns sheet !! j = Some (py "Principal_PassBook")
    ∧ frame_rows sheet !! 0%nat = Some cells
    ∧ cells !! j = Some (Some (py "5")).
Proof.
  apply (edited_value_reaches_sheet (RT:=ascii_only) example_netloc
           (session_with two_records) (py "s1")
           {| data := two_records; url := py "http://example.org/ledger";
              columns := [] |}
           0 (add_calculated (five_fields "2024-01-05" "100" "5" "20" "Ann"))
           (py "0") (py "Principal_PassBook") (JStr (py "5"))).
  - vm_refl.
  - vm_refl.
  - vm_decide.
  - vm_refl.
Defined.
